(** * react-native-simple-version-update: the version comparator and the
      store lookup of the [useVersionUpdate] hook

    The development embeds the hook of [src/unnamed/part_000] (the numeric
    comparator, the App Store / Play Store lookup and [checkForUpdate]) and,
    in [Module Legacy], the earlier hook of [src/index.ts].

    Conventions of the embedding:
    - a JavaScript string is a [string]: a sequence of code units, here
      restricted to the code units 0..255;
    - a JavaScript number is a [JS.number]: [NaN], an infinity, or a double
      whose value is an integer.  The numbers of this program come from
      [parseInt] on decimal digits and are never used in arithmetic, only
      compared; [parseInt] rounds the integer the digits denote to the
      nearest double ([JS.toDouble]): exact below 2^53, an infinity from
      2^1024 on;
    - [await]ed promises are run to completion: a rejected promise is a
      thrown value, modelled by [Throw] in the [outcome] type;
    - the outside world ([Platform.OS], [DeviceInfo], [fetch]) is a record
      [Env] the functions read from. *)

From Stdlib Require Import String Ascii List ZArith Bool Lia.
Import ListNotations.

Local Open Scope string_scope.
Local Open Scope list_scope.

(** ** JavaScript built-ins used by the hook *)

Module JS.

(** Numbers: the doubles the program meets.  [Num z] is the finite double of
    integer value [z] ([-0] and [0] compare alike and are both [Num 0]).
    [undefined] read from an array and used in a comparison is converted to
    [NaN], so [NaN] also stands for it. *)
Inductive number : Type :=
| NaN : number
| Num (z : Z) : number
| Infinity : number
| NegInfinity : number.

(** [a > b] and [a < b] on numbers: false as soon as one side is [NaN]. *)
Definition gt (a b : number) : bool :=
  match a, b with
  | Num x, Num y => (y <? x)%Z
  | Infinity, Num _ => true
  | Infinity, NegInfinity => true
  | Num _, NegInfinity => true
  | _, _ => false
  end.

Definition lt (a b : number) : bool :=
  match a, b with
  | Num x, Num y => (x <? y)%Z
  | Num _, Infinity => true
  | NegInfinity, Infinity => true
  | NegInfinity, Num _ => true
  | _, _ => false
  end.

(** [arr[i]]: reading past the end gives [undefined]. *)
Definition at_index (arr : list number) (i : nat) : number := nth i arr NaN.

(** Character classes. *)
Definition code (c : ascii) : nat := nat_of_ascii c.

Definition isDigit (c : ascii) : bool :=
  (48 <=? code c)%nat && (code c <=? 57)%nat.

Definition digitValue (c : ascii) : Z := Z.of_nat (code c - 48).

(** WhiteSpace and LineTerminator code units below 256: TAB, LF, VT, FF,
    CR, SP and NBSP.  This is the class [\s] and what [trim] removes. *)
Definition isWhiteSpace (c : ascii) : bool :=
  ((9 <=? code c)%nat && (code c <=? 13)%nat)
  || (code c =? 32)%nat || (code c =? 160)%nat.

(** [s.split(sep)] for a one-character separator string. *)
Fixpoint splitFrom (sep : ascii) (part : string) (s : string) : list string :=
  match s with
  | EmptyString => [part]
  | String c rest =>
      if Ascii.eqb c sep then part :: splitFrom sep EmptyString rest
      else splitFrom sep (part ++ String c EmptyString) rest
  end.

Definition split (sep : ascii) (s : string) : list string :=
  splitFrom sep EmptyString s.

(** [s.replace(/[...]/g, '')]: drop every character of a class, that is
    keep the characters [keep] accepts. *)
Fixpoint filterChars (keep : ascii -> bool) (s : string) : string :=
  match s with
  | EmptyString => EmptyString
  | String c rest =>
      if keep c then String c (filterChars keep rest)
      else filterChars keep rest
  end.

Fixpoint trimStart (s : string) : string :=
  match s with
  | EmptyString => EmptyString
  | String c rest => if isWhiteSpace c then trimStart rest else s
  end.

(** [trimEnd], written as one pass from the right: a suffix of white space
    is dropped. *)
Fixpoint trimEnd (s : string) : string :=
  match s with
  | EmptyString => EmptyString
  | String c rest =>
      match trimEnd rest with
      | EmptyString => if isWhiteSpace c then EmptyString
                       else String c EmptyString
      | kept => String c kept
      end
  end.

Definition trim (s : string) : string := trimEnd (trimStart s).

(** [parseInt(s, 10)]: skip leading white space, read an optional sign,
    then the longest prefix of decimal digits; [NaN] when there is no
    digit, otherwise the Number value of the integer read ([toDouble],
    below). *)
Fixpoint digitsPrefix (s : string) : string :=
  match s with
  | EmptyString => EmptyString
  | String c rest =>
      if isDigit c then String c (digitsPrefix rest) else EmptyString
  end.

Fixpoint digitsValue (acc : Z) (digits : string) : Z :=
  match digits with
  | EmptyString => acc
  | String c rest => digitsValue (10 * acc + digitValue c) rest
  end.

(** The Number value of a non-negative integer [n], as an integer: [n]
    itself below 2^53; above, [n] keeps its 53 leading bits [q], rounded to
    nearest with ties to the even [q]. *)
Definition roundTo53Bits (n : Z) : Z :=
  if (n <? 2 ^ 53)%Z then n
  else
    let e := (Z.log2 n - 52)%Z in
    let q := (n / 2 ^ e)%Z in
    let r := (n mod 2 ^ e)%Z in
    let half := (2 ^ (e - 1))%Z in
    let q' :=
      if ((half <? r)%Z || ((r =? half)%Z && Z.odd q))%bool
      then (q + 1)%Z else q in
    (q' * 2 ^ e)%Z.

(** The Number value of an integer: the nearest double, an infinity when the
    rounded magnitude reaches 2^1024.  (Past twenty significant digits an
    engine may read the further digits as zeros; the value taken here is the
    one rounded from all the digits.) *)
Definition toDouble (z : Z) : number :=
  let m := roundTo53Bits (Z.abs z) in
  if (2 ^ 1024 <=? m)%Z then (if (z <? 0)%Z then NegInfinity else Infinity)
  else Num (if (z <? 0)%Z then (- m)%Z else m).

Definition parseInt (s : string) : number :=
  let s1 := trimStart s in
  let '(negative, s2) :=
    match s1 with
    | String "-" rest => (true, rest)
    | String "+" rest => (false, rest)
    | _ => (false, s1)
    end in
  match digitsPrefix s2 with
  | EmptyString => NaN
  | digits =>
      let v := digitsValue 0 digits in
      toDouble (if negative then (- v)%Z else v)
  end.

(** [a || b] on strings: the empty string is falsy. *)
Definition orElse (a b : string) : string :=
  match a with
  | EmptyString => b
  | _ => a
  end.

(** [a > b] on strings: code-unit lexicographic order. *)
Fixpoint stringGt (a b : string) : bool :=
  match a, b with
  | EmptyString, _ => false
  | String _ _, EmptyString => true
  | String x a', String y b' =>
      if (code y <? code x)%nat then true
      else if (code x <? code y)%nat then false
      else stringGt a' b'
  end.

(** Thrown values: an [Error] with its message, or anything else. *)
Inductive thrown : Type :=
| ErrorObj (message : string) : thrown
| NonError : thrown.

Inductive outcome (A : Type) : Type :=
| Return (a : A) : outcome A
| Throw (e : thrown) : outcome A.

Arguments Return {A} a.
Arguments Throw {A} e.

Definition bind {A B : Type} (m : outcome A) (k : A -> outcome B) : outcome B :=
  match m with
  | Return a => k a
  | Throw e => Throw e
  end.

(** [try { body } catch (error) { handler }]. *)
Definition tryCatch {A : Type} (body : outcome A)
    (handler : thrown -> outcome A) : outcome A :=
  match body with
  | Return a => Return a
  | Throw e => handler e
  end.

End JS.

Notation "'await' x '<-' m ';' k" := (JS.bind m (fun x => k))
  (at level 10, x name, m at level 100, k at level 200).

(** ** The comparator of [src/unnamed/part_000] *)

(** [normalizeVersion] (lines 37-47). *)
Definition normalizeVersion (version : string) : list JS.number :=
  firstn 3
    (map (fun part =>
            let numPart := JS.filterChars JS.isDigit part in
            JS.parseInt (JS.orElse numPart "0"))
         (JS.split "." version)
     ++ [JS.Num 0; JS.Num 0; JS.Num 0]).

(** The loop [for (let i = 0; i < 3; i++)] (lines 52-59): [steps] is the
    number of iterations left, [3 - i]. *)
Fixpoint compareFrom (steps i : nat) (latest current : list JS.number) : bool :=
  match steps with
  | O => false
  | S steps' =>
      if JS.gt (JS.at_index latest i) (JS.at_index current i) then true
      else if JS.lt (JS.at_index latest i) (JS.at_index current i) then false
      else compareFrom steps' (S i) latest current
  end.

(** [compareVersions] (lines 36-62). *)
Definition compareVersions (latestVersion currentVersion : string) : bool :=
  let latest := normalizeVersion latestVersion in
  let current := normalizeVersion currentVersion in
  compareFrom 3 0 latest current.

(** ** Regular expressions of the Play Store scraper

    The patterns of the hook are sequences of literal characters, quantified
    character classes and one capture group; [atom] covers exactly that.
    Matching is the backtracking search of [RegExp.prototype.exec]: leftmost
    start position first, a greedy quantifier tries the longest repetition
    first and a lazy one the shortest. *)

Module RegExp.

Inductive atom : Type :=
| Chr (c : ascii) : atom
    (* a literal character *)
| ChrI (c : ascii) : atom
    (* a literal ASCII letter under the [i] flag *)
| Rep (atLeastOne greedy : bool) (cls : ascii -> bool) : atom
    (* [cls+], [cls+?], [cls*], [cls*?] *)
| GroupOpen : atom
| GroupClose : atom.

Definition regex : Type := list atom.

Definition lits (s : string) : regex := map Chr (list_ascii_of_string s).
Definition litsI (s : string) : regex := map ChrI (list_ascii_of_string s).

(** Canonicalization of the [i] flag on the characters the patterns use:
    ASCII letters are compared in upper case. *)
Definition upper (c : ascii) : ascii :=
  if (97 <=? JS.code c)%nat && (JS.code c <=? 122)%nat
  then ascii_of_nat (JS.code c - 32) else c.

(** Character classes. *)
Definition dot (c : ascii) : bool :=       (* [.]: no line terminator *)
  negb ((JS.code c =? 10)%nat || (JS.code c =? 13)%nat).
Definition digitDotDash (c : ascii) : bool :=   (* [[\d.-]] and [[\d-.]] *)
  JS.isDigit c || Ascii.eqb c "." || Ascii.eqb c "-".
Definition digitDot (c : ascii) : bool :=       (* [[\d.]] and [[0-9.]] *)
  JS.isDigit c || Ascii.eqb c ".".
Definition anyChar (c : ascii) : bool :=        (* [[\s\S]] *)
  JS.isWhiteSpace c || negb (JS.isWhiteSpace c).
Definition notGt (c : ascii) : bool :=          (* [[^>]] *)
  negb (Ascii.eqb c ">").

(** A character consumed inside the group is appended to the capture. *)
Definition push (inGroup : bool) (captured : string) (c : ascii) : string :=
  if inGroup then captured ++ String c EmptyString else captured.

(** The repetition of a class after its mandatory part, followed by the
    rest of the pattern [k]. *)
Fixpoint repeatClass (greedy : bool) (cls : ascii -> bool)
    (k : string -> string -> option string)
    (inGroup : bool) (s : string) (captured : string) : option string :=
  match s with
  | EmptyString => k s captured
  | String c rest =>
      if greedy then
        if cls c then
          match repeatClass greedy cls k inGroup rest (push inGroup captured c) with
          | Some m => Some m
          | None => k s captured
          end
        else k s captured
      else
        match k s captured with
        | Some m => Some m
        | None =>
            if cls c
            then repeatClass greedy cls k inGroup rest (push inGroup captured c)
            else None
        end
  end.

(** Match the pattern at the start of [s]; the result is the text of
    capture group 1. *)
Fixpoint matchHere (r : regex) (s : string) (inGroup : bool)
    (captured : string) : option string :=
  match r with
  | [] => Some captured
  | Chr c :: r' =>
      match s with
      | String x rest =>
          if Ascii.eqb x c then matchHere r' rest inGroup (push inGroup captured x)
          else None
      | EmptyString => None
      end
  | ChrI c :: r' =>
      match s with
      | String x rest =>
          if Ascii.eqb (upper x) (upper c)
          then matchHere r' rest inGroup (push inGroup captured x)
          else None
      | EmptyString => None
      end
  | Rep atLeastOne greedy cls :: r' =>
      let k := fun s' captured' => matchHere r' s' inGroup captured' in
      if atLeastOne then
        match s with
        | String x rest =>
            if cls x
            then repeatClass greedy cls k inGroup rest (push inGroup captured x)
            else None
        | EmptyString => None
        end
      else repeatClass greedy cls k inGroup s captured
  | GroupOpen :: r' => matchHere r' s true EmptyString
  | GroupClose :: r' => matchHere r' s false captured
  end.

(** [s.match(pattern)] / [pattern.exec(s)] for a pattern without the [g]
    flag: [None] is [null], [Some m1] is a match whose element [1] is
    [m1]. *)
Fixpoint exec (pattern : regex) (s : string) : option string :=
  match matchHere pattern s false EmptyString with
  | Some m1 => Some m1
  | None =>
      match s with
      | String _ rest => exec pattern rest
      | EmptyString => None
      end
  end.

End RegExp.

(** ** The store lookup of [src/unnamed/part_000] *)

(** The parts of the iTunes lookup payload the hook reads. *)
Record AppInfo : Type := {
  version : option string;        (* [None]: undefined or null *)
  trackViewUrl : option string
}.

Record LookupData : Type := {
  resultCount : JS.number;        (* [NaN]: undefined *)
  results : option (list AppInfo) (* [None]: undefined or null *)
}.

Record Response : Type := {
  ok : bool;
  statusText : string;
  json : JS.outcome LookupData;   (* [response.json()] *)
  text : JS.outcome string        (* [response.text()] *)
}.

Record Env : Type := {
  Platform_OS : string;
  getBundleId : string;
  getVersion : string;
  fetch : string -> JS.outcome Response
}.

(** What [getLatestStoreVersion] resolves to. *)
Record StoreVersion : Type := {
  sv_version : option string;
  sv_url : option string
}.

(** [x || null] on an optional string. *)
Definition orNull (x : option string) : option string :=
  match x with
  | Some EmptyString => None
  | Some s => Some s
  | None => None
  end.

Definition quote : ascii := "034"%char.

(** The patterns of lines 103-108, in source order. *)
Definition patternCurrentVersion : RegExp.regex :=
  (* /Current Version.+?>([\d.-]+)<\/span>/ *)
  RegExp.lits "Current Version"
  ++ [RegExp.Rep true false RegExp.dot; RegExp.Chr ">";
      RegExp.GroupOpen; RegExp.Rep true true RegExp.digitDotDash; RegExp.GroupClose]
  ++ RegExp.lits "</span>".

Definition patternArrayLiteral : RegExp.regex :=
  (* /\[\[\["([\d-.]+?)"\]\]/ *)
  RegExp.lits "[[[" ++ [RegExp.Chr quote;
      RegExp.GroupOpen; RegExp.Rep true false RegExp.digitDotDash; RegExp.GroupClose;
      RegExp.Chr quote]
  ++ RegExp.lits "]]".

Definition patternVersionName : RegExp.regex :=
  (* /"versionName":"([\d.]+)"/ *)
  [RegExp.Chr quote] ++ RegExp.lits "versionName"
  ++ [RegExp.Chr quote; RegExp.Chr ":"; RegExp.Chr quote;
      RegExp.GroupOpen; RegExp.Rep true true RegExp.digitDot; RegExp.GroupClose;
      RegExp.Chr quote].

Definition patternLoose : RegExp.regex :=
  (* /Version[\s\S]*?([\d.]+)/i *)
  RegExp.litsI "Version"
  ++ [RegExp.Rep false false RegExp.anyChar;
      RegExp.GroupOpen; RegExp.Rep true true RegExp.digitDot; RegExp.GroupClose].

Definition patterns : list RegExp.regex :=
  [patternCurrentVersion; patternArrayLiteral; patternVersionName; patternLoose].

(** The loop of lines 110-116 over the patterns still to try:
    [latestVersion] stays [null] when none matches. *)
Fixpoint findVersion (remaining : list RegExp.regex) (html : string) : option string :=
  match remaining with
  | [] => None
  | pattern :: remaining' =>
      match RegExp.exec pattern html with
      | Some (String c m1) => Some (JS.trim (String c m1))
      | _ => findVersion remaining' html
      end
  end.

Definition lookupUrlIos (bundleId : string) : string :=
  "https://itunes.apple.com/lookup?bundleId=" ++ bundleId.

Definition lookupUrlAndroid (bundleId : string) : string :=
  "https://play.google.com/store/apps/details?id=" ++ bundleId ++ "&hl=en&gl=US".

Definition storeUrlAndroid (bundleId : string) : string :=
  "https://play.google.com/store/apps/details?id=" ++ bundleId.

Definition absent : StoreVersion := {| sv_version := None; sv_url := None |}.

(** [data.resultCount > 0 && data.results?.[0]] *)
Definition firstResult (data : LookupData) : option AppInfo :=
  if JS.gt (resultCount data) (JS.Num 0) then
    match results data with
    | Some (appInfo :: _) => Some appInfo
    | _ => None
    end
  else None.

(** [getLatestStoreVersion] (lines 67-129). *)
Definition getLatestStoreVersion (env : Env) : JS.outcome StoreVersion :=
  JS.tryCatch
    (let bundleId := getBundleId env in
     if String.eqb (Platform_OS env) "ios" then
       await response <- fetch env (lookupUrlIos bundleId);
       if negb (ok response) then
         JS.Throw (JS.ErrorObj ("Failed to fetch iOS app info: " ++ statusText response))
       else
         await data <- json response;
         match firstResult data with
         | Some appInfo =>
             JS.Return {| sv_version := orNull (version appInfo);
                          sv_url := orNull (trackViewUrl appInfo) |}
         | None => JS.Return absent
         end
     else
       await response <- fetch env (lookupUrlAndroid bundleId);
       if negb (ok response) then
         JS.Throw (JS.ErrorObj ("Failed to fetch Android app info: " ++ statusText response))
       else
         await html <- text response;
         let latestVersion := findVersion patterns html in
         JS.Return {| sv_version := latestVersion;
                      sv_url := Some (storeUrlAndroid bundleId) |})
    (fun error =>
       let errorMessage :=
         match error with
         | JS.ErrorObj message => message
         | JS.NonError => "Unknown error"
         end in
       JS.Throw (JS.ErrorObj ("Error fetching the latest version: " ++ errorMessage))).

(** ** [checkForUpdate] of [src/unnamed/part_000]

    The [useState] cells of the hook.  [error] holds the [Error] object. *)
Record HookState : Type := {
  currentVersion : option string;
  liveVersion : option string;
  needUpdate : bool;
  updateUrl : option string;
  isLoading : bool;
  error : option JS.thrown
}.

(** The state of the first render (lines 23-28). *)
Definition initialState : HookState :=
  {| currentVersion := None; liveVersion := None; needUpdate := false;
     updateUrl := None; isLoading := true; error := None |}.

(** [checkForUpdate] (lines 134-164): the state after all its setters. *)
Definition checkForUpdate (env : Env) (st : HookState) : HookState :=
  let appVersion := getVersion env in
  match getLatestStoreVersion env with
  | JS.Return {| sv_version := Some (String c v); sv_url := url |} =>
      let latestVersion := String c v in
      {| currentVersion := Some appVersion;
         liveVersion := Some latestVersion;
         needUpdate := if compareVersions latestVersion appVersion then true else false;
         updateUrl := url;
         isLoading := false;
         error := None |}
  | JS.Return _ =>
      {| currentVersion := Some appVersion;
         liveVersion := None;
         needUpdate := false;
         updateUrl := updateUrl st;
         isLoading := false;
         error := None |}
  | JS.Throw err =>
      let error' :=
        match err with
        | JS.ErrorObj _ => err
        | JS.NonError => JS.ErrorObj "Unknown error occurred"
        end in
      {| currentVersion := Some appVersion;
         liveVersion := liveVersion st;
         needUpdate := needUpdate st;
         updateUrl := updateUrl st;
         isLoading := false;
         error := Some error' |}
  end.

(** ** [handleUpdate] of [src/unnamed/part_000]

    The two calls of [Linking] the hook makes. *)
Record Linking : Type := {
  canOpenURL : string -> JS.outcome bool;
  openURL : string -> JS.outcome unit
}.

(** [err instanceof Error ? err : new Error(fallback)] *)
Definition asError (fallback : string) (err : JS.thrown) : JS.thrown :=
  match err with
  | JS.ErrorObj _ => err
  | JS.NonError => JS.ErrorObj fallback
  end.

Definition setError (st : HookState) (err : JS.thrown) : HookState :=
  {| currentVersion := currentVersion st;
     liveVersion := liveVersion st;
     needUpdate := needUpdate st;
     updateUrl := updateUrl st;
     isLoading := isLoading st;
     error := Some err |}.

(** [handleUpdate] (lines 169-187): the state after the call, and the URL
    [Linking.openURL] was called with, if it was called. *)
Definition handleUpdate (linking : Linking) (st : HookState)
    : HookState * option string :=
  match updateUrl st with
  | Some (String c u) =>
      let url := String c u in
      match canOpenURL linking url with
      | JS.Return true =>
          match openURL linking url with
          | JS.Return _ => (st, Some url)
          | JS.Throw err =>
              (setError st (asError "Failed to open update URL" err), Some url)
          end
      | JS.Return false =>
          (setError st (JS.ErrorObj ("Cannot open URL: " ++ url)), None)
      | JS.Throw err =>
          (setError st (asError "Failed to open update URL" err), None)
      end
  | _ => (st, None)
  end.

(** The effect of lines 189-191 on the first render. *)
Definition mount (env : Env) : HookState := checkForUpdate env initialState.

(** ** Helpers of the statements *)

(** Every character of [s] satisfies [p]. *)
Fixpoint allChars (p : ascii -> bool) (s : string) : bool :=
  match s with
  | EmptyString => true
  | String c rest => p c && allChars p rest
  end.

Fixpoint startsWith (needle s : string) : bool :=
  match needle, s with
  | EmptyString, _ => true
  | String _ _, EmptyString => false
  | String x needle', String y s' => Ascii.eqb x y && startsWith needle' s'
  end.

(** [s.includes(needle)] *)
Fixpoint includes (s needle : string) : bool :=
  startsWith needle s
  || match s with
     | EmptyString => false
     | String _ rest => includes rest needle
     end.

(** A regular expression in which no group marker occurs. *)
Fixpoint groupFree (r : RegExp.regex) : bool :=
  match r with
  | [] => true
  | RegExp.GroupOpen :: _ => false
  | RegExp.GroupClose :: _ => false
  | _ :: r' => groupFree r'
  end.

(** The normalization as section 3 of the specification words it: split on
    ".", strip the non-digits of each part, read what is left as a decimal
    integer (nothing left reads as 0), pad with zeros on the right, keep the
    first three. *)
Fixpoint decimal (digits : string) : Z :=
  match digits with
  | EmptyString => 0
  | String c rest =>
      JS.digitValue c * 10 ^ Z.of_nat (String.length rest) + decimal rest
  end.

Definition NormalizedVersion (v : string) : list Z :=
  firstn 3
    (map (fun part => decimal (JS.filterChars JS.isDigit part)) (JS.split "." v)
     ++ repeat 0%Z 3).

(** A pattern is skipped when it does not match or captures nothing. *)
Definition skipped (html : string) (pattern : RegExp.regex) : Prop :=
  RegExp.exec pattern html = None \/ RegExp.exec pattern html = Some EmptyString.

(** A number that is neither [NaN] nor negative. *)
Definition nonNegative (x : JS.number) : Prop :=
  match x with
  | JS.Num z => (0 <= z)%Z
  | JS.Infinity => True
  | _ => False
  end.

(** Two integers that order the numbers as [>] and [<] do: the first tells
    the infinities from the finite numbers. *)
Definition numberKey (x : JS.number) : list Z :=
  match x with
  | JS.Num z => [0; z]%Z
  | JS.Infinity => [1; 0]%Z
  | JS.NegInfinity => [-1; 0]%Z
  | JS.NaN => [0; 0]%Z
  end.

(** [n] times the character [c]. *)
Fixpoint replicate (n : nat) (c : ascii) : string :=
  match n with
  | O => EmptyString
  | S n' => String c (replicate n' c)
  end.

(** "Compare component-wise in order [major, minor, patch]": the strict
    lexicographic order on integer tuples. *)
Fixpoint tupleGt (latest current : list Z) : bool :=
  match latest, current with
  | x :: latest', y :: current' =>
      if (y <? x)%Z then true
      else if (x <? y)%Z then false
      else tupleGt latest' current'
  | _, _ => false
  end.

(** The characters of an application identifier: letters, digits, ".",
    "_" and "-". *)
Definition isBundleIdChar (c : ascii) : bool :=
  ((48 <=? JS.code c)%nat && (JS.code c <=? 57)%nat)
  || ((65 <=? JS.code c)%nat && (JS.code c <=? 90)%nat)
  || ((97 <=? JS.code c)%nat && (JS.code c <=? 122)%nat)
  || Ascii.eqb c "." || Ascii.eqb c "_" || Ascii.eqb c "-".

(** The page fragment pattern (c) is written for: ["versionName":"v"]. *)
Definition versionNameFragment (v : string) : string :=
  String quote "versionName" ++ String quote ":" ++ String quote v
  ++ String quote EmptyString.

(** [error instanceof Error ? error.message : 'Unknown error'] (line 126). *)
Definition messageOf (e : JS.thrown) : string :=
  match e with
  | JS.ErrorObj message => message
  | JS.NonError => "Unknown error"
  end.

(** The request [getLatestStoreVersion] issues. *)
Definition lookupUrl (env : Env) : string :=
  if String.eqb (Platform_OS env) "ios" then lookupUrlIos (getBundleId env)
  else lookupUrlAndroid (getBundleId env).

(** ** Sample environments

    An installed app "com.example.app" 1.0.0 whose every request has the
    outcome [r]. *)
Definition sampleEnv (os : string) (r : JS.outcome Response) : Env :=
  {| Platform_OS := os;
     getBundleId := "com.example.app";
     getVersion := "1.0.0";
     fetch := fun _ => r |}.

(** The request is rejected (no network). *)
Definition offline : JS.outcome Response :=
  JS.Throw (JS.ErrorObj "Network request failed").

(** A 503 answer. *)
Definition unavailable : JS.outcome Response :=
  JS.Return {| ok := false;
               statusText := "Service Unavailable";
               json := JS.Throw (JS.ErrorObj "JSON Parse error");
               text := JS.Return "Service Unavailable" |}.

(** A 200 answer of the iTunes lookup for an unknown bundle id. *)
Definition noResults : JS.outcome Response :=
  JS.Return {| ok := true;
               statusText := "OK";
               json := JS.Return {| resultCount := JS.Num 0; results := Some [] |};
               text := JS.Return EmptyString |}.

(** A 200 answer carrying a store page. *)
Definition listing (html : string) : JS.outcome Response :=
  JS.Return {| ok := true;
               statusText := "OK";
               json := JS.Throw (JS.ErrorObj "JSON Parse error");
               text := JS.Return html |}.

(** A page on which pattern (a) reads 1.2.3 and pattern (c) reads 4.5.6. *)
Definition pageBoth : string :=
  "<div>Current Version</div><span>1.2.3</span>,"
  ++ String quote "versionName" ++ String quote ":"
  ++ String quote "4.5.6" ++ String quote EmptyString.

(** ** The earlier hook of [src/index.ts] *)

Module Legacy.

(** [compareVersions] (lines 67-71): [replace(/\./g, '')] on both sides,
    then [>] on the strings. *)
Definition compareVersions (latestVersion currentV : string) : bool :=
  let latest := JS.filterChars (fun c => negb (Ascii.eqb c ".")) latestVersion in
  let current := JS.filterChars (fun c => negb (Ascii.eqb c ".")) currentV in
  JS.stringGt latest current.

(** The pattern of lines 49-50:
    /<div[^>]*>\s*Current\s+Version\s*<\/div>\s*<span[^>]*>\s*([0-9.]+)\s*<\/span>/ *)
Definition regex : RegExp.regex :=
  RegExp.lits "<div"
  ++ [RegExp.Rep false true RegExp.notGt; RegExp.Chr ">";
      RegExp.Rep false true JS.isWhiteSpace]
  ++ RegExp.lits "Current"
  ++ [RegExp.Rep true true JS.isWhiteSpace]
  ++ RegExp.lits "Version"
  ++ [RegExp.Rep false true JS.isWhiteSpace]
  ++ RegExp.lits "</div>"
  ++ [RegExp.Rep false true JS.isWhiteSpace]
  ++ RegExp.lits "<span"
  ++ [RegExp.Rep false true RegExp.notGt; RegExp.Chr ">";
      RegExp.Rep false true JS.isWhiteSpace;
      RegExp.GroupOpen; RegExp.Rep true true RegExp.digitDot; RegExp.GroupClose;
      RegExp.Rep false true JS.isWhiteSpace]
  ++ RegExp.lits "</span>".

(** [getLatestStoreVersion] (lines 31-65).  It calls [setUpdateUrl] on the
    way, so it takes the [updateUrl] cell and returns it next to its
    result; the [catch] of line 61 turns every thrown value into [null]. *)
Definition getLatestStoreVersion (env : Env) (updateUrl : option string)
    : option string * option string :=
  let bundleId := getBundleId env in
  if String.eqb (Platform_OS env) "ios" then
    match fetch env (lookupUrlIos bundleId) with
    | JS.Throw _ => (None, updateUrl)
    | JS.Return response =>
        match json response with
        | JS.Throw _ => (None, updateUrl)
        | JS.Return data =>
            if JS.gt (resultCount data) (JS.Num 0) then
              match results data with
              | None => (None, updateUrl)
                  (* [data.results[0]] throws a TypeError *)
              | Some [] => (None, None)
                  (* [setUpdateUrl(undefined)], then [.version] throws *)
              | Some (appInfo :: _) => (version appInfo, trackViewUrl appInfo)
              end
            else (None, updateUrl)
        end
    end
  else
    match fetch env (storeUrlAndroid bundleId) with
    | JS.Throw _ => (None, updateUrl)
    | JS.Return response =>
        match text response with
        | JS.Throw _ => (None, updateUrl)
        | JS.Return html =>
            match RegExp.exec regex html with
            | Some (String c m1) =>
                (Some (String c m1), Some (storeUrlAndroid bundleId))
            | _ => (None, updateUrl)
            end
        end
    end.

(** The [useState] cells of this hook (lines 6-9). *)
Record HookState : Type := {
  currentVersion : option string;
  liveVersion : option string;
  needUpdate : bool;
  updateUrl : option string
}.

Definition initialState : HookState :=
  {| currentVersion := None; liveVersion := None; needUpdate := false;
     updateUrl := None |}.

(** [checkForUpdate] (lines 12-26). *)
Definition checkForUpdate (env : Env) (st : HookState) : HookState :=
  let appVersion := getVersion env in
  let '(latestVersion, updateUrl') := getLatestStoreVersion env (updateUrl st) in
  {| currentVersion := Some appVersion;
     liveVersion := latestVersion;
     needUpdate :=
       match latestVersion with
       | Some (String c v) =>
           if compareVersions (String c v) appVersion then true
           else needUpdate st
       | _ => needUpdate st
       end;
     updateUrl := updateUrl' |}.

(** [handleUpdate] (lines 73-77): the URL [Linking.openURL] was called with;
    a rejection of [openURL] is not caught. *)
Definition handleUpdate (linking : Linking) (st : HookState)
    : JS.outcome (option string) :=
  match updateUrl st with
  | Some (String c u) =>
      await _ <- openURL linking (String c u);
      JS.Return (Some (String c u))
  | _ => JS.Return None
  end.

End Legacy.

(** * Properties *)

(** ** The embedding on sample inputs *)

Example split_keeps_empty_parts :
  JS.split "." "1..2." = ["1"; ""; "2"; ""] /\ JS.split "." "" = [""].
Proof. split; reflexivity. Qed.

Example parseInt_samples :
  JS.parseInt "10" = JS.Num 10 /\ JS.parseInt "007" = JS.Num 7
  /\ JS.parseInt "" = JS.NaN /\ JS.parseInt " -12x" = JS.Num (-12).
Proof. repeat split. Qed.

(** Rounding: ties go to the even neighbour, and the largest finite double
    is 2^1024 - 2^971. *)
Example toDouble_samples :
  JS.toDouble 9007199254740993 = JS.Num 9007199254740992
  /\ JS.toDouble 9007199254740995 = JS.Num 9007199254740996
  /\ JS.toDouble (2 ^ 1024 - 2 ^ 970 - 1) = JS.Num (2 ^ 1024 - 2 ^ 971)
  /\ JS.toDouble (2 ^ 1024 - 2 ^ 970) = JS.Infinity
  /\ JS.parseInt "-9007199254740993" = JS.Num (-9007199254740992).
Proof. repeat split; vm_compute; reflexivity. Qed.

Example normalizeVersion_samples :
  normalizeVersion "1.10.0" = [JS.Num 1; JS.Num 10; JS.Num 0]
  /\ normalizeVersion "2.0" = [JS.Num 2; JS.Num 0; JS.Num 0]
  /\ normalizeVersion "1.2.3-beta" = [JS.Num 1; JS.Num 2; JS.Num 3]
  /\ normalizeVersion "1.2.3.4" = [JS.Num 1; JS.Num 2; JS.Num 3]
  /\ normalizeVersion "" = [JS.Num 0; JS.Num 0; JS.Num 0].
Proof. repeat split. Qed.

Example trim_sample : JS.trim "  1.2 3  " = "1.2 3".
Proof. reflexivity. Qed.

(** The lazy [.+?] of pattern (a) stops at the first ">" that is followed by
    a version and "</span>". *)
Example patternCurrentVersion_sample :
  RegExp.exec patternCurrentVersion "Current Version>1<1>>22</span>" = Some "22"
  /\ RegExp.exec patternCurrentVersion "Current Version</div><span>1.2.3" = None.
Proof. split; reflexivity. Qed.

Example patterns_on_pageBoth :
  map (fun pattern => RegExp.exec pattern pageBoth) patterns
  = [Some "1.2.3"; None; Some "4.5.6"; Some "1.2.3"].
Proof. reflexivity. Qed.

(** The loose pattern (d) is case-insensitive and reads the first digits or
    dots after the word. *)
Example patternLoose_sample :
  RegExp.exec patternLoose "app VERSION: v3.4.5-rc" = Some "3.4.5"
  /\ findVersion patterns "app VERSION: v3.4.5-rc" = Some "3.4.5"
  /\ findVersion patterns "<html></html>" = None.
Proof. repeat split. Qed.

(** ** Characters and [parseInt] *)

Ltac each_ascii c :=
  let b0 := fresh "b" in let b1 := fresh "b" in let b2 := fresh "b" in
  let b3 := fresh "b" in let b4 := fresh "b" in let b5 := fresh "b" in
  let b6 := fresh "b" in let b7 := fresh "b" in
  destruct c as [b0 b1 b2 b3 b4 b5 b6 b7];
  destruct b0, b1, b2, b3, b4, b5, b6, b7.

Lemma digit_not_space (c : ascii) :
  JS.isDigit c = true -> JS.isWhiteSpace c = false.
Proof.
  each_ascii c; vm_compute; intro H; solve [reflexivity | discriminate H].
Qed.

Lemma digitDotDash_not_space (c : ascii) :
  RegExp.digitDotDash c = true -> JS.isWhiteSpace c = false.
Proof.
  each_ascii c; vm_compute; intro H; solve [reflexivity | discriminate H].
Qed.

Lemma digitValue_nonneg (c : ascii) : (0 <= JS.digitValue c)%Z.
Proof. unfold JS.digitValue. lia. Qed.

Lemma digitsPrefix_all (s : string) :
  allChars JS.isDigit s = true -> JS.digitsPrefix s = s.
Proof.
  induction s as [|c rest IH]; simpl; intro H.
  - reflexivity.
  - apply andb_prop in H. destruct H as [Hc Hrest].
    rewrite Hc, (IH Hrest). reflexivity.
Qed.

Lemma filterChars_all (keep : ascii -> bool) (s : string) :
  allChars keep (JS.filterChars keep s) = true.
Proof.
  induction s as [|c rest IH]; simpl.
  - reflexivity.
  - destruct (keep c) eqn:Hc; simpl.
    + rewrite Hc. exact IH.
    + exact IH.
Qed.

(** ** Rounding to a double *)

Lemma roundTo53Bits_nonneg (n : Z) :
  (0 <= n)%Z -> (0 <= JS.roundTo53Bits n)%Z.
Proof.
  intro Hn. unfold JS.roundTo53Bits.
  destruct (n <? 2 ^ 53)%Z; [exact Hn|].
  set (e := (Z.log2 n - 52)%Z).
  assert (Hpow : (0 <= 2 ^ e)%Z) by (apply Z.pow_nonneg; lia).
  assert (Hq : (0 <= n / 2 ^ e)%Z) by (apply Z_div_nonneg_nonneg; assumption).
  apply Z.mul_nonneg_nonneg; [|exact Hpow].
  destruct ((2 ^ (e - 1) <? n mod 2 ^ e)%Z
            || ((n mod 2 ^ e =? 2 ^ (e - 1))%Z && Z.odd (n / 2 ^ e)))%bool; lia.
Qed.

(** Below 2^53 the double is the integer itself. *)
Lemma toDouble_small (z : Z) :
  (0 <= z < 2 ^ 53)%Z -> JS.toDouble z = JS.Num z.
Proof.
  intros [Hlo Hhi]. unfold JS.toDouble, JS.roundTo53Bits.
  rewrite (Z.abs_eq z Hlo).
  destruct (Z.ltb_spec z (2 ^ 53)) as [_|Hge]; [|lia].
  assert (Hbig : (2 ^ 53 < 2 ^ 1024)%Z) by (apply Z.pow_lt_mono_r; lia).
  destruct (Z.leb_spec (2 ^ 1024) z) as [Hover|_]; [lia|].
  destruct (Z.ltb_spec z 0) as [Hneg|_]; [lia|reflexivity].
Qed.

(** A non-negative integer becomes a non-negative number, never [NaN]. *)
Lemma toDouble_nonNegative (z : Z) :
  (0 <= z)%Z -> nonNegative (JS.toDouble z).
Proof.
  intro Hz. unfold JS.toDouble. rewrite (Z.abs_eq z Hz).
  pose proof (roundTo53Bits_nonneg z Hz) as Hm.
  destruct (Z.ltb_spec z 0) as [Hneg|_]; [lia|].
  destruct (2 ^ 1024 <=? JS.roundTo53Bits z)%Z; simpl; [exact I | exact Hm].
Qed.

Lemma nonNegative_not_NaN (x : JS.number) : nonNegative x -> x <> JS.NaN.
Proof. intros H ->. exact H. Qed.

(** ** The order of the numbers *)

Lemma gt_same (x : JS.number) : JS.gt x x = false.
Proof. destruct x; simpl; try reflexivity. apply Z.ltb_irrefl. Qed.

Lemma lt_same (x : JS.number) : JS.lt x x = false.
Proof. destruct x; simpl; try reflexivity. apply Z.ltb_irrefl. Qed.

Lemma lt_is_gt_swapped (x y : JS.number) : JS.lt x y = JS.gt y x.
Proof. destruct x, y; reflexivity. Qed.

(** Two numbers other than [NaN] of which neither is greater are equal. *)
Lemma number_trichotomy (x y : JS.number) :
  x <> JS.NaN -> y <> JS.NaN ->
  JS.gt x y = false -> JS.lt x y = false -> x = y.
Proof.
  intros Hx Hy. destruct x as [|a| |], y as [|b| |]; simpl;
    intros Hgt Hlt; try congruence.
  f_equal. destruct (Z.ltb_spec b a), (Z.ltb_spec a b); try discriminate; lia.
Qed.


(** One step of the loop on two equal components. *)
Lemma step_same (x : JS.number) (rest : bool) :
  (if JS.gt x x then true else if JS.lt x x then false else rest) = rest.
Proof. rewrite gt_same, lt_same. reflexivity. Qed.

(** ** [parseInt] *)

(** On a non-empty string of digits [parseInt] reads the whole string. *)
Lemma parseInt_digits (c : ascii) (rest : string) :
  JS.isDigit c = true -> allChars JS.isDigit rest = true ->
  JS.parseInt (String c rest) = JS.toDouble (JS.digitsValue 0 (String c rest)).
Proof.
  intros Hc Hrest.
  assert (Hpre : JS.digitsPrefix (String c rest) = String c rest).
  { apply digitsPrefix_all. simpl. rewrite Hc. exact Hrest. }
  unfold JS.parseInt.
  replace (JS.trimStart (String c rest)) with (String c rest)
    by (simpl; rewrite (digit_not_space c Hc); reflexivity).
  assert (Hsign :
    match String c rest with
    | String "-" r => (true, r)
    | String "+" r => (false, r)
    | _ => (false, String c rest)
    end = (false, String c rest)).
  { clear Hpre Hrest. revert Hc.
    each_ascii c; intro Hc; solve [reflexivity | vm_compute in Hc; discriminate Hc]. }
  rewrite Hsign, Hpre. reflexivity.
Qed.

(** The accumulator loop of [parseInt] computes the positional value. *)
Lemma digitsValue_decimal (digits : string) :
  forall acc,
    JS.digitsValue acc digits
    = (acc * 10 ^ Z.of_nat (String.length digits) + decimal digits)%Z.
Proof.
  induction digits as [|c rest IH]; intro acc.
  - simpl. lia.
  - change (JS.digitsValue acc (String c rest))
      with (JS.digitsValue (10 * acc + JS.digitValue c) rest).
    rewrite IH.
    change (decimal (String c rest))
      with (JS.digitValue c * 10 ^ Z.of_nat (String.length rest) + decimal rest)%Z.
    change (String.length (String c rest)) with (S (String.length rest)).
    rewrite Nat2Z.inj_succ, Z.pow_succ_r by lia.
    ring.
Qed.

(** What the callback of [map] in [normalizeVersion] returns for one part. *)
Lemma partNumber_decimal (part : string) :
  JS.parseInt (JS.orElse (JS.filterChars JS.isDigit part) "0")
  = JS.toDouble (decimal (JS.filterChars JS.isDigit part)).
Proof.
  pose proof (filterChars_all JS.isDigit part) as Hall.
  destruct (JS.filterChars JS.isDigit part) as [|c rest] eqn:Hf.
  - reflexivity.
  - simpl in Hall. apply andb_prop in Hall. destruct Hall as [Hc Hrest].
    unfold JS.orElse. rewrite (parseInt_digits c rest Hc Hrest).
    rewrite digitsValue_decimal, Z.mul_0_l. reflexivity.
Qed.

Lemma decimal_nonneg (digits : string) : (0 <= decimal digits)%Z.
Proof.
  induction digits as [|c rest IH]; simpl decimal.
  - lia.
  - pose proof (digitValue_nonneg c).
    assert (0 <= 10 ^ Z.of_nat (String.length rest))%Z by (apply Z.pow_nonneg; lia).
    nia.
Qed.

(** ** Shape of the normalized version *)

Lemma normalizeVersion_spec (v : string) :
  normalizeVersion v = map JS.toDouble (NormalizedVersion v).
Proof.
  unfold normalizeVersion, NormalizedVersion.
  rewrite <- firstn_map, map_app, map_map.
  f_equal. f_equal.
  apply map_ext. intro part. apply partNumber_decimal.
Qed.

Lemma NormalizedVersion_nonneg (v : string) :
  Forall (fun z => (0 <= z)%Z) (NormalizedVersion v).
Proof.
  unfold NormalizedVersion.
  set (padded := map _ _ ++ _).
  assert (Hall : Forall (fun z => (0 <= z)%Z) padded).
  { apply Forall_app. split.
    - apply Forall_forall. intros z Hz.
      apply in_map_iff in Hz. destruct Hz as [part [<- _]].
      apply decimal_nonneg.
    - simpl. repeat constructor; lia. }
  rewrite <- (firstn_skipn 3 padded) in Hall.
  apply Forall_app in Hall. exact (proj1 Hall).
Qed.

Lemma NormalizedVersion_length (v : string) :
  List.length (NormalizedVersion v) = 3%nat.
Proof.
  unfold NormalizedVersion.
  rewrite length_firstn, length_app, repeat_length. lia.
Qed.

(** Every normalized version is a triple of non-negative numbers. *)
Lemma normalizeVersion_triple (v : string) :
  exists a b c : JS.number,
    normalizeVersion v = [a; b; c]
    /\ nonNegative a /\ nonNegative b /\ nonNegative c.
Proof.
  rewrite normalizeVersion_spec.
  pose proof (NormalizedVersion_length v) as Hlen.
  pose proof (NormalizedVersion_nonneg v) as Hpos.
  destruct (NormalizedVersion v) as [|a [|b [|c [|d l]]]]; try discriminate Hlen.
  exists (JS.toDouble a), (JS.toDouble b), (JS.toDouble c).
  inversion Hpos as [|? ? Ha Hpos1]; subst.
  inversion Hpos1 as [|? ? Hb Hpos2]; subst.
  inversion Hpos2 as [|? ? Hc _]; subst.
  split; [reflexivity|].
  repeat split; apply toDouble_nonNegative; assumption.
Qed.

(** The same, with what the loop needs: no component is [NaN]. *)
Lemma normalizeVersion_proper (v : string) :
  exists a b c : JS.number,
    normalizeVersion v = [a; b; c]
    /\ a <> JS.NaN /\ b <> JS.NaN /\ c <> JS.NaN.
Proof.
  destruct (normalizeVersion_triple v) as (a & b & c & H & Ha & Hb & Hc).
  exists a, b, c. repeat split; try assumption; apply nonNegative_not_NaN; assumption.
Qed.

(** ** The comparator *)

Lemma tupleGt_keys (x y : JS.number) (l l' : list Z) :
  x <> JS.NaN -> y <> JS.NaN ->
  tupleGt (numberKey x ++ l) (numberKey y ++ l')
  = if JS.gt x y then true else if JS.lt x y then false else tupleGt l l'.
Proof.
  intros Hx Hy. destruct x as [|a| |], y as [|b| |]; try congruence; reflexivity.
Qed.

(** The loop is the lexicographic order of the keys of the two triples. *)
Lemma compareVersions_keys (latestVersion currentVersion : string) :
  compareVersions latestVersion currentVersion
  = tupleGt (flat_map numberKey (normalizeVersion latestVersion))
            (flat_map numberKey (normalizeVersion currentVersion)).
Proof.
  unfold compareVersions.
  destruct (normalizeVersion_proper latestVersion)
    as (a0 & a1 & a2 & -> & Ha0 & Ha1 & Ha2).
  destruct (normalizeVersion_proper currentVersion)
    as (b0 & b1 & b2 & -> & Hb0 & Hb1 & Hb2).
  cbn [flat_map].
  rewrite !tupleGt_keys by assumption.
  reflexivity.
Qed.

Lemma Num_inj (a b : Z) : JS.Num a = JS.Num b <-> a = b.
Proof. split; [intro H; injection H; auto | intros ->; reflexivity]. Qed.



(** C5, as the code has it: normalization is the tuple of section 3 of the
    specification (split on ".", strip non-digits, read as an integer with
    nothing read as 0, pad with zeros, keep three) with every integer
    rounded to the nearest double, as [parseInt] returns it: always exactly
    three numbers, none [NaN], none negative; the tuple is exactly the
    integers when they are all below 2^53; and "2.0" is newer than
    "1.9.9". *)
Theorem normalizeVersion_rounds_NormalizedVersion (v : string) :
  normalizeVersion v = map JS.toDouble (NormalizedVersion v)
  /\ List.length (NormalizedVersion v) = 3%nat
  /\ Forall (fun z => (0 <= z)%Z) (NormalizedVersion v)
  /\ Forall nonNegative (normalizeVersion v)
  /\ (Forall (fun z => (z < 2 ^ 53)%Z) (NormalizedVersion v) ->
      normalizeVersion v = map JS.Num (NormalizedVersion v))
  /\ compareVersions "2.0" "1.9.9" = true.
Proof.
  split; [apply normalizeVersion_spec|].
  split; [apply NormalizedVersion_length|].
  split; [apply NormalizedVersion_nonneg|].
  split.
  { destruct (normalizeVersion_triple v) as (a & b & c & -> & Ha & Hb & Hc).
    repeat constructor; assumption. }
  split; [|reflexivity].
  intro Hsmall. rewrite normalizeVersion_spec.
  pose proof (NormalizedVersion_nonneg v) as Hpos.
  induction (NormalizedVersion v) as [|z l IH]; [reflexivity|].
  inversion Hsmall as [|? ? Hz Hl]; subst.
  inversion Hpos as [|? ? Hz0 Hl0]; subst.
  simpl. rewrite (toDouble_small z (conj Hz0 Hz)), (IH Hl Hl0). reflexivity.
Qed.

(** The theorem at "2.0": three integers below 2^53. *)
Lemma normalizeVersion_rounds_NormalizedVersion_witness :
  normalizeVersion "2.0" = [JS.Num 2; JS.Num 0; JS.Num 0].
Proof.
  destruct (normalizeVersion_rounds_NormalizedVersion "2.0")
    as (_ & _ & _ & _ & Hexact & _).
  apply Hexact. repeat constructor.
Defined.

(** C5 as stated fails on long components: 2^53 + 1 is read as 2^53, and a
    component of 401 digits as [Infinity], which is no integer. *)
Lemma normalizeVersion_exact_counterexample :
  NormalizedVersion "9007199254740993.0.0" = [9007199254740993; 0; 0]%Z
  /\ normalizeVersion "9007199254740993.0.0"
     = [JS.Num 9007199254740992; JS.Num 0; JS.Num 0]
  /\ normalizeVersion "9007199254740993.0.0"
     <> map JS.Num (NormalizedVersion "9007199254740993.0.0")
  /\ normalizeVersion (replicate 401 "9") = [JS.Infinity; JS.Num 0; JS.Num 0].
Proof.
  split; [vm_compute; reflexivity|].
  split; [vm_compute; reflexivity|].
  split; [vm_compute; discriminate|].
  vm_compute. reflexivity.
Qed.

(** C8: the comparison is defined on every pair of strings: both sides
    normalize to three proper numbers (no [NaN], no [undefined] is ever
    compared), so of two strings one is newer, or the other is, or they
    normalize to the same triple; "1.x.0" normalizes to 1, 0, 0 and
    "1.2.3-beta" is newer than "1.2.2". *)
Theorem compareVersions_total (latestVersion currentVersion : string) :
  (exists a0 a1 a2 b0 b1 b2 : JS.number,
     normalizeVersion latestVersion = [a0; a1; a2]
     /\ normalizeVersion currentVersion = [b0; b1; b2]
     /\ Forall nonNegative [a0; a1; a2; b0; b1; b2])
  /\ (compareVersions latestVersion currentVersion = true
      \/ compareVersions currentVersion latestVersion = true
      \/ normalizeVersion latestVersion = normalizeVersion currentVersion)
  /\ normalizeVersion "1.x.0" = [JS.Num 1; JS.Num 0; JS.Num 0]
  /\ compareVersions "1.2.3-beta" "1.2.2" = true.
Proof.
  unfold compareVersions.
  destruct (normalizeVersion_triple latestVersion)
    as (a0 & a1 & a2 & -> & Ha0 & Ha1 & Ha2).
  destruct (normalizeVersion_triple currentVersion)
    as (b0 & b1 & b2 & -> & Hb0 & Hb1 & Hb2).
  split.
  { exists a0, a1, a2, b0, b1, b2.
    split; [reflexivity|]. split; [reflexivity|]. repeat constructor; assumption. }
  split; [|split; reflexivity].
  apply nonNegative_not_NaN in Ha0, Ha1, Ha2, Hb0, Hb1, Hb2.
  cbn [compareFrom JS.at_index nth].
  destruct (JS.gt a0 b0) eqn:G0; [left; reflexivity|].
  destruct (JS.lt a0 b0) eqn:L0.
  { right; left. rewrite lt_is_gt_swapped in L0. rewrite L0. reflexivity. }
  rewrite (number_trichotomy a0 b0 Ha0 Hb0 G0 L0), step_same.
  destruct (JS.gt a1 b1) eqn:G1; [left; reflexivity|].
  destruct (JS.lt a1 b1) eqn:L1.
  { right; left. rewrite lt_is_gt_swapped in L1. rewrite L1. reflexivity. }
  rewrite (number_trichotomy a1 b1 Ha1 Hb1 G1 L1), step_same.
  destruct (JS.gt a2 b2) eqn:G2; [left; reflexivity|].
  destruct (JS.lt a2 b2) eqn:L2.
  { right; left. rewrite lt_is_gt_swapped in L2. rewrite L2. reflexivity. }
  rewrite (number_trichotomy a2 b2 Ha2 Hb2 G2 L2).
  right; right. reflexivity.
Qed.

(** C10: no string is newer than itself. *)
Theorem compareVersions_irreflexive (v : string) :
  compareVersions v v = false.
Proof.
  unfold compareVersions.
  destruct (normalizeVersion_proper v) as (a & b & c & -> & _).
  cbn [compareFrom JS.at_index nth]. rewrite !step_same. reflexivity.
Qed.

(** C2: the comparator of [src/unnamed/part_000] ranks "1.10.0" above
    "1.9.0"; the comparator of [src/index.ts] compares the dot-stripped
    strings "1100" and "190" and does not. *)
Theorem compareVersions_numeric_1_10_0 :
  compareVersions "1.10.0" "1.9.0" = true
  /\ NormalizedVersion "1.10.0" = [1; 10; 0]%Z
  /\ NormalizedVersion "1.9.0" = [1; 9; 0]%Z
  /\ Legacy.compareVersions "1.10.0" "1.9.0" = false.
Proof. repeat split. Qed.

(** C9: the two comparators differ, in both directions. *)
Theorem legacy_compareVersions_differs :
  Legacy.compareVersions "1.10.0" "1.9.0" <> compareVersions "1.10.0" "1.9.0"
  /\ Legacy.compareVersions "1.9.0" "1.10.0" = true
  /\ compareVersions "1.9.0" "1.10.0" = false.
Proof. repeat split. discriminate. Qed.

(** ** Strings *)

Lemma allChars_app (p : ascii -> bool) (a b : string) :
  allChars p (a ++ b) = allChars p a && allChars p b.
Proof.
  induction a as [|c a IH]; simpl.
  - reflexivity.
  - rewrite IH. apply andb_assoc.
Qed.

Lemma allChars_impl (p p' : ascii -> bool) (s : string) :
  (forall c, p c = true -> p' c = true) ->
  allChars p s = true -> allChars p' s = true.
Proof.
  intros Himpl. induction s as [|c s IH]; simpl; intro H.
  - reflexivity.
  - apply andb_prop in H. destruct H as [Hc Hs].
    rewrite (Himpl c Hc), (IH Hs). reflexivity.
Qed.

Lemma trimEnd_no_space (s : string) :
  allChars (fun c => negb (JS.isWhiteSpace c)) s = true -> JS.trimEnd s = s.
Proof.
  induction s as [|c s IH]; simpl; intro H.
  - reflexivity.
  - apply andb_prop in H. destruct H as [Hc Hs].
    rewrite (IH Hs). destruct s.
    + apply negb_true_iff in Hc. rewrite Hc. reflexivity.
    + reflexivity.
Qed.

(** [trim] leaves a string without white space as it is. *)
Lemma trim_no_space (s : string) :
  allChars (fun c => negb (JS.isWhiteSpace c)) s = true -> JS.trim s = s.
Proof.
  intro H. unfold JS.trim.
  assert (Hstart : JS.trimStart s = s).
  { destruct s as [|c s]; [reflexivity|].
    simpl in H. apply andb_prop in H. destruct H as [Hc _].
    apply negb_true_iff in Hc. simpl. rewrite Hc. reflexivity. }
  rewrite Hstart. apply trimEnd_no_space, H.
Qed.

(** A string that contains [needle] contains the first character of
    [needle]. *)
Lemma startsWith_head (c : ascii) (needle s : string) :
  startsWith (String c needle) s = true ->
  allChars (fun x => negb (Ascii.eqb x c)) s = false.
Proof.
  destruct s as [|y s]; simpl; intro H.
  - discriminate H.
  - apply andb_prop in H. destruct H as [Hy _].
    apply Ascii.eqb_eq in Hy. subst y.
    rewrite Ascii.eqb_refl. reflexivity.
Qed.

Lemma includes_head (c : ascii) (needle s : string) :
  allChars (fun x => negb (Ascii.eqb x c)) s = true ->
  includes s (String c needle) = false.
Proof.
  induction s as [|y s IH]; intro H.
  - reflexivity.
  - change (includes (String y s) (String c needle))
      with (startsWith (String c needle) (String y s) || includes s (String c needle)).
    destruct (startsWith (String c needle) (String y s)) eqn:Hstart.
    + apply startsWith_head in Hstart. congruence.
    + simpl in H. apply andb_prop in H. destruct H as [_ Hs].
      rewrite (IH Hs). reflexivity.
Qed.

(** ** The regular expressions *)

Section Capture.

Variable greedy : bool.
Variable cls : ascii -> bool.

(** Outside the group a repetition leaves the capture alone. *)
Lemma repeatClass_outside (k : string -> string -> option string)
    (s captured m : string) :
  RegExp.repeatClass greedy cls k false s captured = Some m ->
  exists s', k s' captured = Some m.
Proof.
  revert captured. induction s as [|c s IH]; intros captured H.
  - exists EmptyString. exact H.
  - simpl in H. destruct greedy.
    + destruct (cls c).
      * destruct (RegExp.repeatClass true cls k false s captured) eqn:Hrep.
        -- injection H as ->. apply (IH captured Hrep).
        -- exists (String c s). exact H.
      * exists (String c s). exact H.
    + destruct (k (String c s) captured) eqn:Hk.
      * injection H as ->. exists (String c s). exact Hk.
      * destruct (cls c); [|discriminate H]. apply (IH captured H).
Qed.

(** Inside the group a repetition appends characters of the class. *)
Lemma repeatClass_inside (k : string -> string -> option string)
    (m : string) :
  (forall s' captured', k s' captured' = Some m -> m = captured') ->
  forall s captured,
    captured <> EmptyString -> allChars cls captured = true ->
    RegExp.repeatClass greedy cls k true s captured = Some m ->
    m <> EmptyString /\ allChars cls m = true.
Proof.
  intros Hk. induction s as [|c s IH]; intros captured Hne Hall H.
  - apply Hk in H. subst m. split; assumption.
  - assert (Hstep : cls c = true ->
              RegExp.push true captured c <> EmptyString
              /\ allChars cls (RegExp.push true captured c) = true).
    { intro Hc. unfold RegExp.push. split.
      - destruct captured; discriminate.
      - rewrite allChars_app, Hall. simpl. rewrite Hc. reflexivity. }
    cbn [RegExp.repeatClass] in H. destruct greedy.
    + destruct (cls c) eqn:Hc.
      * destruct (RegExp.repeatClass true cls k true s
                    (RegExp.push true captured c)) eqn:Hrep.
        -- injection H as ->.
           destruct (Hstep eq_refl) as [Hne' Hall'].
           apply (IH _ Hne' Hall' Hrep).
        -- apply Hk in H. subst m. split; assumption.
      * apply Hk in H. subst m. split; assumption.
    + destruct (k (String c s) captured) eqn:Hk'.
      * injection H as ->. apply Hk in Hk'. subst m. split; assumption.
      * destruct (cls c) eqn:Hc; [|discriminate H].
        destruct (Hstep eq_refl) as [Hne' Hall'].
        apply (IH _ Hne' Hall' H).
Qed.

End Capture.

(** Atoms outside the group do not change the capture. *)
Lemma matchHere_groupFree_prefix (pre r : RegExp.regex) :
  groupFree pre = true ->
  forall s captured m,
    RegExp.matchHere (pre ++ r) s false captured = Some m ->
    exists s', RegExp.matchHere r s' false captured = Some m.
Proof.
  induction pre as [|a pre IH]; intros Hfree s captured m H.
  - exists s. exact H.
  - destruct a as [c|c|atLeastOne greedy cls| |]; simpl in Hfree;
      try discriminate Hfree.
    + simpl in H. destruct s as [|x s]; [discriminate H|].
      destruct (Ascii.eqb x c); [|discriminate H].
      apply (IH Hfree _ _ _ H).
    + simpl in H. destruct s as [|x s]; [discriminate H|].
      destruct (Ascii.eqb (RegExp.upper x) (RegExp.upper c)); [|discriminate H].
      apply (IH Hfree _ _ _ H).
    + simpl in H. destruct atLeastOne.
      * destruct s as [|x s]; [discriminate H|].
        destruct (cls x); [|discriminate H].
        apply repeatClass_outside in H. destruct H as [s' H].
        apply (IH Hfree _ _ _ H).
      * apply repeatClass_outside in H. destruct H as [s' H].
        apply (IH Hfree _ _ _ H).
Qed.

Lemma matchHere_groupFree (post : RegExp.regex) (s captured m : string) :
  groupFree post = true ->
  RegExp.matchHere post s false captured = Some m -> m = captured.
Proof.
  intros Hfree H. rewrite <- (app_nil_r post) in H.
  apply (matchHere_groupFree_prefix post [] Hfree) in H.
  destruct H as [s' H]. simpl in H. congruence.
Qed.

Lemma exec_matchHere (pattern : RegExp.regex) (s m : string) :
  RegExp.exec pattern s = Some m ->
  exists s', RegExp.matchHere pattern s' false EmptyString = Some m.
Proof.
  induction s as [|c s IH]; simpl; intro H.
  - destruct (RegExp.matchHere pattern EmptyString false EmptyString) eqn:Hm;
      [|discriminate H].
    injection H as ->. exists EmptyString. exact Hm.
  - destruct (RegExp.matchHere pattern (String c s) false EmptyString) eqn:Hm.
    + injection H as ->. exists (String c s). exact Hm.
    + apply (IH H).
Qed.

(** A pattern whose only group is [(cls+)] or [(cls+?)] captures a
    non-empty string of characters of [cls]. *)
Lemma exec_capture (pre post : RegExp.regex) (greedy : bool)
    (cls : ascii -> bool) (s m : string) :
  groupFree pre = true -> groupFree post = true ->
  RegExp.exec
    (pre ++ RegExp.GroupOpen :: RegExp.Rep true greedy cls
         :: RegExp.GroupClose :: post) s = Some m ->
  m <> EmptyString /\ allChars cls m = true.
Proof.
  intros Hpre Hpost H.
  apply exec_matchHere in H. destruct H as [s1 H].
  apply (matchHere_groupFree_prefix pre _ Hpre) in H. destruct H as [s2 H].
  simpl in H. destruct s2 as [|x s2]; [discriminate H|].
  destruct (cls x) eqn:Hx; [|discriminate H].
  apply (repeatClass_inside greedy cls _ m) in H.
  - exact H.
  - intros s' captured' Hk. apply (matchHere_groupFree post s' captured' m Hpost Hk).
  - discriminate.
  - simpl. rewrite Hx. reflexivity.
Qed.

(** What pattern (a) captures survives the truthiness test of line 112 and
    the [trim] of line 113 unchanged. *)
Lemma patternCurrentVersion_capture (html m : string) :
  RegExp.exec patternCurrentVersion html = Some m ->
  m <> EmptyString /\ JS.trim m = m.
Proof.
  intro H.
  apply (exec_capture
           (RegExp.lits "Current Version"
            ++ [RegExp.Rep true false RegExp.dot; RegExp.Chr ">"])
           (RegExp.lits "</span>") true RegExp.digitDotDash html m
           eq_refl eq_refl) in H.
  destruct H as [Hne Hall]. split; [exact Hne|].
  apply trim_no_space.
  apply (allChars_impl RegExp.digitDotDash); [|exact Hall].
  intros c Hc. rewrite (digitDotDash_not_space c Hc). reflexivity.
Qed.

(** ** The pattern loop *)

Lemma findVersion_first_match (before after : list RegExp.regex)
    (pattern : RegExp.regex) (html m : string) :
  Forall (skipped html) before ->
  RegExp.exec pattern html = Some m -> m <> EmptyString ->
  findVersion (before ++ pattern :: after) html = Some (JS.trim m).
Proof.
  intros Hbefore Hm Hne.
  induction Hbefore as [|p before [Hp|Hp] _ IH]; simpl.
  - rewrite Hm. destruct m; [contradiction|reflexivity].
  - rewrite Hp. exact IH.
  - rewrite Hp. exact IH.
Qed.

(** ** The store lookup *)

(** A rejected request surfaces as an [Error] of [getLatestStoreVersion]. *)
Lemma getLatestStoreVersion_rejected (env : Env) (e : JS.thrown) :
  fetch env (lookupUrl env) = JS.Throw e ->
  exists message,
    getLatestStoreVersion env
    = JS.Throw (JS.ErrorObj ("Error fetching the latest version: " ++ message)).
Proof.
  unfold lookupUrl, getLatestStoreVersion. intro H.
  destruct (String.eqb (Platform_OS env) "ios"); rewrite H; simpl;
    destruct e; eexists; reflexivity.
Qed.

(** So does an answer whose status is not a success. *)
Lemma getLatestStoreVersion_not_ok (env : Env) (response : Response) :
  fetch env (lookupUrl env) = JS.Return response ->
  ok response = false ->
  exists message,
    getLatestStoreVersion env
    = JS.Throw (JS.ErrorObj ("Error fetching the latest version: " ++ message)).
Proof.
  unfold lookupUrl, getLatestStoreVersion. intros H Hok.
  destruct (String.eqb (Platform_OS env) "ios"); rewrite H; simpl;
    rewrite Hok; simpl; eexists; reflexivity.
Qed.

(** The Android branch on an answer with a success status. *)
Lemma getLatestStoreVersion_android (env : Env) (response : Response)
    (html : string) :
  String.eqb (Platform_OS env) "ios" = false ->
  fetch env (lookupUrlAndroid (getBundleId env)) = JS.Return response ->
  ok response = true ->
  text response = JS.Return html ->
  getLatestStoreVersion env
  = JS.Return {| sv_version := findVersion patterns html;
                 sv_url := Some (storeUrlAndroid (getBundleId env)) |}.
Proof.
  intros Hos Hfetch Hok Htext. unfold getLatestStoreVersion.
  rewrite Hos, Hfetch. simpl. rewrite Hok, Htext. reflexivity.
Qed.

(** [checkForUpdate] stores the error and leaves [needUpdate] alone. *)
Lemma checkForUpdate_error (env : Env) (st : HookState) (message : string) :
  getLatestStoreVersion env = JS.Throw (JS.ErrorObj message) ->
  error (checkForUpdate env st) = Some (JS.ErrorObj message)
  /\ needUpdate (checkForUpdate env st) = needUpdate st
  /\ liveVersion (checkForUpdate env st) = liveVersion st.
Proof.
  intro H. unfold checkForUpdate. rewrite H. repeat split.
Qed.

(** C3: with the network down, and with a 503 answer, on either platform,
    [getLatestStoreVersion] of [src/unnamed/part_000] throws and
    [checkForUpdate] reports the error; [getLatestStoreVersion] of
    [src/index.ts] returns [null] there and its [checkForUpdate] ends with
    no live version and [needUpdate] false. *)
Theorem transport_failure_outcomes :
  getLatestStoreVersion (sampleEnv "ios" offline)
  = JS.Throw (JS.ErrorObj "Error fetching the latest version: Network request failed")
  /\ getLatestStoreVersion (sampleEnv "android" offline)
     = JS.Throw (JS.ErrorObj "Error fetching the latest version: Network request failed")
  /\ getLatestStoreVersion (sampleEnv "ios" unavailable)
     = JS.Throw (JS.ErrorObj
         "Error fetching the latest version: Failed to fetch iOS app info: Service Unavailable")
  /\ getLatestStoreVersion (sampleEnv "android" unavailable)
     = JS.Throw (JS.ErrorObj
         "Error fetching the latest version: Failed to fetch Android app info: Service Unavailable")
  /\ error (checkForUpdate (sampleEnv "ios" offline) initialState)
     = Some (JS.ErrorObj "Error fetching the latest version: Network request failed")
  /\ Legacy.getLatestStoreVersion (sampleEnv "ios" offline) None = (None, None)
  /\ Legacy.getLatestStoreVersion (sampleEnv "android" offline) None = (None, None)
  /\ Legacy.getLatestStoreVersion (sampleEnv "ios" unavailable) None = (None, None)
  /\ Legacy.getLatestStoreVersion (sampleEnv "android" unavailable) None = (None, None)
  /\ Legacy.checkForUpdate (sampleEnv "ios" offline) Legacy.initialState
     = {| Legacy.currentVersion := Some "1.0.0";
          Legacy.liveVersion := None;
          Legacy.needUpdate := false;
          Legacy.updateUrl := None |}.
Proof. repeat split. Qed.

(** C4: the patterns are tried in the order of the list and the first one
    that matches gives the version; on a page where pattern (a) and pattern
    (c) both match, with different values, the lookup returns the value of
    pattern (a). *)
Theorem findVersion_priority :
  (forall (before after : list RegExp.regex) (pattern : RegExp.regex)
          (html m : string),
     patterns = before ++ pattern :: after ->
     Forall (skipped html) before ->
     RegExp.exec pattern html = Some m -> m <> EmptyString ->
     findVersion patterns html = Some (JS.trim m))
  /\ (forall (env : Env) (response : Response) (html va vc : string),
        String.eqb (Platform_OS env) "ios" = false ->
        fetch env (lookupUrlAndroid (getBundleId env)) = JS.Return response ->
        ok response = true ->
        text response = JS.Return html ->
        RegExp.exec patternCurrentVersion html = Some va ->
        RegExp.exec patternVersionName html = Some vc ->
        va <> vc ->
        findVersion patterns html = Some va
        /\ getLatestStoreVersion env
           = JS.Return {| sv_version := Some va;
                          sv_url := Some (storeUrlAndroid (getBundleId env)) |}).
Proof.
  split.
  - intros before after pattern html m -> Hbefore Hm Hne.
    apply findVersion_first_match; assumption.
  - intros env response html va vc Hos Hfetch Hok Htext Ha _ _.
    destruct (patternCurrentVersion_capture html va Ha) as [Hne Htrim].
    assert (Hfind : findVersion patterns html = Some va).
    { pose proof (findVersion_first_match []
                    [patternArrayLiteral; patternVersionName; patternLoose]
                    patternCurrentVersion html va (Forall_nil _) Ha Hne) as H.
      rewrite Htrim in H. exact H. }
    split; [exact Hfind|].
    rewrite (getLatestStoreVersion_android env response html Hos Hfetch Hok Htext).
    rewrite Hfind. reflexivity.
Qed.

(** The theorem on [pageBoth]: 1.2.3 of pattern (a) wins over 4.5.6 of
    pattern (c). *)
Lemma findVersion_priority_witness :
  RegExp.exec patternCurrentVersion pageBoth = Some "1.2.3"
  /\ RegExp.exec patternVersionName pageBoth = Some "4.5.6"
  /\ getLatestStoreVersion (sampleEnv "android" (listing pageBoth))
     = JS.Return {| sv_version := Some "1.2.3";
                    sv_url := Some "https://play.google.com/store/apps/details?id=com.example.app" |}.
Proof.
  split; [reflexivity|]. split; [reflexivity|].
  destruct findVersion_priority as [_ Hpriority].
  refine (proj2 (Hpriority (sampleEnv "android" (listing pageBoth))
                   _ pageBoth "1.2.3" "4.5.6" _ _ _ _ _ _ _)).
  - reflexivity.
  - reflexivity.
  - reflexivity.
  - reflexivity.
  - reflexivity.
  - reflexivity.
  - discriminate.
Defined.

(** C6: an iOS lookup answered with a success status and [resultCount] 0,
    or without a first result, resolves to the absent result (no version, no
    URL); nothing is thrown and [checkForUpdate] records no error. *)
Theorem ios_no_result_is_absent (env : Env) (response : Response)
    (data : LookupData) (st : HookState) :
  String.eqb (Platform_OS env) "ios" = true ->
  fetch env (lookupUrlIos (getBundleId env)) = JS.Return response ->
  ok response = true ->
  json response = JS.Return data ->
  resultCount data = JS.Num 0
  \/ results data = None \/ results data = Some [] ->
  getLatestStoreVersion env = JS.Return absent
  /\ error (checkForUpdate env st) = None
  /\ liveVersion (checkForUpdate env st) = None
  /\ needUpdate (checkForUpdate env st) = false.
Proof.
  intros Hos Hfetch Hok Hjson Hnone.
  assert (Hfirst : firstResult data = None).
  { unfold firstResult. destruct Hnone as [H|[H|H]]; rewrite H.
    - reflexivity.
    - destruct (JS.gt _ _); reflexivity.
    - destruct (JS.gt _ _); reflexivity. }
  assert (Hget : getLatestStoreVersion env = JS.Return absent).
  { unfold getLatestStoreVersion.
    rewrite Hos, Hfetch. simpl. rewrite Hok, Hjson. simpl.
    rewrite Hfirst. reflexivity. }
  split; [exact Hget|].
  unfold checkForUpdate. rewrite Hget. repeat split.
Qed.

(** The theorem on the answer [noResults]. *)
Lemma ios_no_result_is_absent_witness :
  getLatestStoreVersion (sampleEnv "ios" noResults) = JS.Return absent
  /\ error (checkForUpdate (sampleEnv "ios" noResults) initialState) = None.
Proof.
  destruct (ios_no_result_is_absent (sampleEnv "ios" noResults)
              {| ok := true; statusText := "OK";
                 json := JS.Return {| resultCount := JS.Num 0; results := Some [] |};
                 text := JS.Return EmptyString |}
              {| resultCount := JS.Num 0; results := Some [] |}
              initialState)
    as (Hget & Herr & _ & _).
  - reflexivity.
  - reflexivity.
  - reflexivity.
  - reflexivity.
  - left. reflexivity.
  - split; assumption.
Defined.

(** C7: an Android lookup answered with a success status resolves to the
    version the patterns find, or none, together with the store URL built
    from the application identifier alone; the request URL is that URL
    followed by the locale parameters, and the store URL contains no "&",
    hence neither "&hl=en" nor "&gl=US". *)
Theorem android_store_url (env : Env) (response : Response) (html : string) :
  String.eqb (Platform_OS env) "ios" = false ->
  fetch env (lookupUrlAndroid (getBundleId env)) = JS.Return response ->
  ok response = true ->
  text response = JS.Return html ->
  allChars isBundleIdChar (getBundleId env) = true ->
  getLatestStoreVersion env
  = JS.Return {| sv_version := findVersion patterns html;
                 sv_url := Some (storeUrlAndroid (getBundleId env)) |}
  /\ storeUrlAndroid (getBundleId env)
     = ("https://play.google.com/store/apps/details?id=" ++ getBundleId env)%string
  /\ lookupUrlAndroid (getBundleId env)
     = (storeUrlAndroid (getBundleId env) ++ "&hl=en&gl=US")%string
  /\ includes (storeUrlAndroid (getBundleId env)) "&" = false
  /\ includes (storeUrlAndroid (getBundleId env)) "&hl=en" = false
  /\ includes (storeUrlAndroid (getBundleId env)) "&gl=US" = false.
Proof.
  intros Hos Hfetch Hok Htext Hid.
  assert (Hamp : allChars (fun x => negb (Ascii.eqb x "&"))
                   (storeUrlAndroid (getBundleId env)) = true).
  { unfold storeUrlAndroid. rewrite allChars_app. apply andb_true_intro. split.
    - reflexivity.
    - apply (allChars_impl isBundleIdChar); [|exact Hid].
      intro c. each_ascii c; vm_compute; intro H;
        solve [reflexivity | discriminate H]. }
  split; [apply (getLatestStoreVersion_android env response html); assumption|].
  split; [reflexivity|].
  split.
  { unfold lookupUrlAndroid, storeUrlAndroid.
    generalize (getBundleId env). intro b.
    change ("https://play.google.com/store/apps/details?id=" ++ b ++ "&hl=en&gl=US")%string
      with ("https://play.google.com/store/apps/details?id="
            ++ (b ++ "&hl=en&gl=US"))%string.
    clear. generalize "https://play.google.com/store/apps/details?id="%string.
    intro a. induction a as [|c a IH]; simpl; [reflexivity|].
    rewrite IH. reflexivity. }
  repeat split; apply includes_head; exact Hamp.
Qed.

(** The theorem on a page without any version. *)
Lemma android_store_url_witness :
  getLatestStoreVersion (sampleEnv "android" (listing "<html></html>"))
  = JS.Return {| sv_version := None;
                 sv_url := Some "https://play.google.com/store/apps/details?id=com.example.app" |}
  /\ includes "https://play.google.com/store/apps/details?id=com.example.app" "&hl=en" = false.
Proof.
  destruct (android_store_url (sampleEnv "android" (listing "<html></html>"))
              {| ok := true; statusText := "OK";
                 json := JS.Throw (JS.ErrorObj "JSON Parse error");
                 text := JS.Return "<html></html>" |}
              "<html></html>")
    as (Hget & _ & _ & _ & Hhl & _).
  - reflexivity.
  - reflexivity.
  - reflexivity.
  - reflexivity.
  - reflexivity.
  - split; [exact Hget | exact Hhl].
Defined.

(** * Further properties of the code *)

(** ** [split] *)

Lemma append_empty_r (s : string) : (s ++ EmptyString)%string = s.
Proof. induction s as [|c s IH]; simpl; [|rewrite IH]; reflexivity. Qed.

Lemma append_assoc_string (a b c : string) :
  ((a ++ b) ++ c)%string = (a ++ (b ++ c))%string.
Proof. induction a as [|x a IH]; simpl; [|rewrite IH]; reflexivity. Qed.

(** The part under construction is a prefix of the first part returned. *)
Lemma splitFrom_part (sep : ascii) (s : string) :
  exists hd tl,
    JS.split sep s = hd :: tl
    /\ forall part, JS.splitFrom sep part s = (part ++ hd)%string :: tl.
Proof.
  unfold JS.split. induction s as [|c s IH].
  - exists EmptyString, []. split; [reflexivity|].
    intro part. simpl. rewrite append_empty_r. reflexivity.
  - destruct IH as (hd & tl & Hsplit & Hfrom). simpl.
    destruct (Ascii.eqb c sep).
    + exists EmptyString, (hd :: tl). split.
      * rewrite Hsplit. reflexivity.
      * intro part. rewrite append_empty_r, Hsplit. reflexivity.
    + exists (String c hd), tl. split.
      * rewrite Hfrom. reflexivity.
      * intro part. rewrite Hfrom, append_assoc_string. reflexivity.
Qed.

Lemma split_cons_sep (sep : ascii) (s : string) :
  JS.split sep (String sep s) = EmptyString :: JS.split sep s.
Proof. unfold JS.split. simpl. rewrite Ascii.eqb_refl. reflexivity. Qed.

Lemma split_cons_other (sep c : ascii) (s hd : string) (tl : list string) :
  Ascii.eqb c sep = false ->
  JS.split sep s = hd :: tl ->
  JS.split sep (String c s) = String c hd :: tl.
Proof.
  intros Hc Hs.
  destruct (splitFrom_part sep s) as (hd' & tl' & Hsplit & Hfrom).
  rewrite Hs in Hsplit. injection Hsplit as <- <-.
  unfold JS.split. simpl. rewrite Hc, Hfrom. reflexivity.
Qed.

Lemma split_app (sep : ascii) (a b : string) :
  JS.split sep (a ++ String sep b) = JS.split sep a ++ JS.split sep b.
Proof.
  induction a as [|c a IH].
  - simpl append. rewrite split_cons_sep. reflexivity.
  - change (String c a ++ String sep b)%string
      with (String c (a ++ String sep b)).
    destruct (Ascii.eqb c sep) eqn:Hc.
    + apply Ascii.eqb_eq in Hc. subst c.
      rewrite !split_cons_sep, IH. reflexivity.
    + destruct (splitFrom_part sep a) as (hd & tl & Hsplit & _).
      rewrite (split_cons_other sep c a hd tl Hc Hsplit).
      rewrite (split_cons_other sep c (a ++ String sep b) hd
                 (tl ++ JS.split sep b) Hc).
      * reflexivity.
      * rewrite IH, Hsplit. reflexivity.
Qed.

Lemma split_no_sep (sep : ascii) (s : string) :
  allChars (fun c => negb (Ascii.eqb c sep)) s = true ->
  JS.split sep s = [s].
Proof.
  induction s as [|c s IH]; intro H.
  - reflexivity.
  - simpl in H. apply andb_prop in H. destruct H as [Hc Hs].
    apply negb_true_iff in Hc.
    apply (split_cons_other sep c s s [] Hc (IH Hs)).
Qed.

Lemma digit_not_dot (c : ascii) :
  JS.isDigit c = true -> negb (Ascii.eqb c ".") = true.
Proof.
  each_ascii c; vm_compute; intro H; solve [reflexivity | discriminate H].
Qed.

Lemma filterChars_id (keep : ascii -> bool) (s : string) :
  allChars keep s = true -> JS.filterChars keep s = s.
Proof.
  induction s as [|c s IH]; simpl; intro H.
  - reflexivity.
  - apply andb_prop in H. destruct H as [Hc Hs].
    rewrite Hc, (IH Hs). reflexivity.
Qed.

(** [normalizeVersion] in terms of the parts. *)
Lemma normalizeVersion_parts (v : string) :
  normalizeVersion v
  = firstn 3
      (map (fun part => JS.toDouble (decimal (JS.filterChars JS.isDigit part)))
           (JS.split "." v)
       ++ [JS.Num 0; JS.Num 0; JS.Num 0]).
Proof.
  unfold normalizeVersion. f_equal. f_equal.
  apply map_ext. intro part. apply partNumber_decimal.
Qed.

Lemma firstn3_pad_zero (l : list JS.number) :
  firstn 3 ((l ++ [JS.Num 0]) ++ [JS.Num 0; JS.Num 0; JS.Num 0])
  = firstn 3 (l ++ [JS.Num 0; JS.Num 0; JS.Num 0]).
Proof. destruct l as [|a [|b [|c l]]]; reflexivity. Qed.

Lemma firstn3_long (l l' pad : list JS.number) :
  (3 <= List.length l)%nat ->
  firstn 3 ((l ++ l') ++ pad) = firstn 3 (l ++ pad).
Proof.
  intro H. destruct l as [|a [|b [|c l]]]; simpl in H; try lia. reflexivity.
Qed.

(** Three dot-free parts joined by dots split into these parts. *)
Lemma split_dotted3 (a b c : string) :
  allChars (fun x => negb (Ascii.eqb x ".")) a = true ->
  allChars (fun x => negb (Ascii.eqb x ".")) b = true ->
  allChars (fun x => negb (Ascii.eqb x ".")) c = true ->
  JS.split "." (a ++ String "." (b ++ String "." c)) = [a; b; c].
Proof.
  intros Ha Hb Hc.
  rewrite !split_app, (split_no_sep "." a Ha), (split_no_sep "." b Hb),
    (split_no_sep "." c Hc).
  reflexivity.
Qed.

(** ** The order of the comparator *)

Lemma tupleGt_asym (a : list Z) :
  forall b, tupleGt a b = true -> tupleGt b a = false.
Proof.
  induction a as [|x a IH]; intros [|y b] H; simpl in *; try reflexivity.
  destruct (Z.ltb_spec y x), (Z.ltb_spec x y); try reflexivity;
    try discriminate H; try lia.
  apply (IH b H).
Qed.

Lemma tupleGt_trans (a : list Z) :
  forall b c, tupleGt a b = true -> tupleGt b c = true -> tupleGt a c = true.
Proof.
  induction a as [|x a IH]; intros [|y b] [|z c] Hab Hbc; simpl in *;
    try discriminate.
  destruct (Z.ltb_spec y x), (Z.ltb_spec x y), (Z.ltb_spec z y),
    (Z.ltb_spec y z), (Z.ltb_spec z x), (Z.ltb_spec x z);
    try reflexivity; try discriminate; try lia.
  apply (IH b c Hab Hbc).
Qed.

Lemma compareFrom_same (l : list JS.number) (steps : nat) :
  forall i, compareFrom steps i l l = false.
Proof.
  induction steps as [|steps IH]; intro i; simpl.
  - reflexivity.
  - rewrite gt_same, lt_same. apply IH.
Qed.

(** X1: the comparator is asymmetric: when [latest] is newer than [current],
    [current] is not newer than [latest]. *)
Theorem compareVersions_asymmetric (a b : string) :
  compareVersions a b = true -> compareVersions b a = false.
Proof.
  rewrite !compareVersions_keys. apply tupleGt_asym.
Qed.

Lemma compareVersions_asymmetric_witness :
  compareVersions "1.9.0" "1.10.0" = false.
Proof. apply (compareVersions_asymmetric "1.10.0" "1.9.0"). reflexivity. Defined.

(** X2: the comparator is transitive. *)
Theorem compareVersions_transitive (a b c : string) :
  compareVersions a b = true -> compareVersions b c = true ->
  compareVersions a c = true.
Proof.
  rewrite !compareVersions_keys. apply tupleGt_trans.
Qed.

Lemma compareVersions_transitive_witness :
  compareVersions "2.0" "1.2.3-beta" = true.
Proof.
  apply (compareVersions_transitive "2.0" "1.10" "1.2.3-beta"); reflexivity.
Defined.

(** X3: a further part that reads as zero changes nothing: "1.2" and "1.2.0"
    normalize alike, whatever the number of parts before, so neither is
    newer than the other. *)
Theorem normalizeVersion_zero_part (v p : string) :
  allChars (fun c => negb (Ascii.eqb c ".")) p = true ->
  decimal (JS.filterChars JS.isDigit p) = 0%Z ->
  normalizeVersion (v ++ String "." p) = normalizeVersion v
  /\ compareVersions (v ++ String "." p) v = false
  /\ compareVersions v (v ++ String "." p) = false.
Proof.
  intros Hp Hzero.
  assert (Hnorm : normalizeVersion (v ++ String "." p) = normalizeVersion v).
  { rewrite !normalizeVersion_parts, split_app, (split_no_sep "." p Hp).
    rewrite map_app. simpl map. rewrite Hzero.
    change (JS.toDouble 0) with (JS.Num 0). apply firstn3_pad_zero. }
  split; [exact Hnorm|].
  unfold compareVersions. rewrite Hnorm.
  split; apply compareFrom_same.
Qed.

Lemma normalizeVersion_zero_part_witness :
  normalizeVersion "1.2.0" = normalizeVersion "1.2"
  /\ compareVersions "1.2.0" "1.2" = false
  /\ compareVersions "1.2" "1.2.0" = false.
Proof.
  apply (normalizeVersion_zero_part "1.2" "0"); reflexivity.
Defined.


(** X4: only the first three parts count: once a version has three parts,
    whatever follows a further dot is ignored, so a fourth component (a build
    number) never makes a version newer. *)
Theorem normalizeVersion_ignores_fourth (v w other : string) :
  (3 <= List.length (JS.split "." v))%nat ->
  normalizeVersion (v ++ String "." w) = normalizeVersion v
  /\ compareVersions (v ++ String "." w) other = compareVersions v other
  /\ compareVersions other (v ++ String "." w) = compareVersions other v.
Proof.
  intro Hlen.
  assert (Hnorm : normalizeVersion (v ++ String "." w) = normalizeVersion v).
  { rewrite !normalizeVersion_parts, split_app, map_app.
    apply firstn3_long. rewrite length_map. exact Hlen. }
  unfold compareVersions. rewrite Hnorm. repeat split.
Qed.

Lemma normalizeVersion_ignores_fourth_witness :
  normalizeVersion "1.2.3.99" = normalizeVersion "1.2.3"
  /\ compareVersions "1.2.3.99" "1.2.3" = compareVersions "1.2.3" "1.2.3"
  /\ compareVersions "1.2.3" "1.2.3.99" = compareVersions "1.2.3" "1.2.3".
Proof.
  apply (normalizeVersion_ignores_fourth "1.2.3" "99" "1.2.3").
  vm_compute. lia.
Defined.

Lemma split_filter_digitDot (v : string) :
  JS.split "." (JS.filterChars RegExp.digitDot v)
  = map (JS.filterChars RegExp.digitDot) (JS.split "." v).
Proof.
  induction v as [|c v IH].
  - reflexivity.
  - destruct (splitFrom_part "." v) as (hd & tl & Hsplit & _).
    destruct (Ascii.eqb c ".") eqn:Hdot.
    + apply Ascii.eqb_eq in Hdot. subst c.
      change (JS.filterChars RegExp.digitDot (String "." v))
        with (String "." (JS.filterChars RegExp.digitDot v)).
      rewrite !split_cons_sep, IH. reflexivity.
    + rewrite (split_cons_other "." c v hd tl Hdot Hsplit).
      rewrite Hsplit in IH. simpl map in *.
      simpl JS.filterChars. destruct (RegExp.digitDot c).
      * apply (split_cons_other "." c _ _ _ Hdot IH).
      * exact IH.
Qed.

Lemma filter_digit_after_digitDot (s : string) :
  JS.filterChars JS.isDigit (JS.filterChars RegExp.digitDot s)
  = JS.filterChars JS.isDigit s.
Proof.
  induction s as [|c s IH]; simpl.
  - reflexivity.
  - unfold RegExp.digitDot at 1. destruct (JS.isDigit c) eqn:Hc; simpl.
    + rewrite Hc, IH. reflexivity.
    + destruct (Ascii.eqb c ".") eqn:Hdot; simpl.
      * rewrite Hc. exact IH.
      * exact IH.
Qed.

(** X5: only digits and dots matter: removing every other character from a
    version string changes neither its normalized triple nor any comparison.
    Digits inside a suffix therefore join the digits before it: "1.2.3-rc1"
    reads as 1.2.31. *)
Theorem normalizeVersion_digits_and_dots_only (v other : string) :
  normalizeVersion (JS.filterChars RegExp.digitDot v) = normalizeVersion v
  /\ compareVersions (JS.filterChars RegExp.digitDot v) other
     = compareVersions v other
  /\ compareVersions other (JS.filterChars RegExp.digitDot v)
     = compareVersions other v.
Proof.
  assert (Hnorm : normalizeVersion (JS.filterChars RegExp.digitDot v)
                  = normalizeVersion v).
  { rewrite !normalizeVersion_parts, split_filter_digitDot, map_map.
    f_equal. f_equal. apply map_ext. intro part.
    rewrite filter_digit_after_digitDot. reflexivity. }
  unfold compareVersions. rewrite Hnorm. repeat split.
Qed.

Example normalizeVersion_suffix_digits :
  normalizeVersion "1.2.3-rc1" = [JS.Num 1; JS.Num 2; JS.Num 31]
  /\ compareVersions "1.2.3-rc1" "1.2.4" = true.
Proof. split; reflexivity. Qed.

Lemma normalizeVersion_three_parts (a b c : string) :
  allChars (fun x => negb (Ascii.eqb x ".")) a = true ->
  allChars (fun x => negb (Ascii.eqb x ".")) b = true ->
  allChars (fun x => negb (Ascii.eqb x ".")) c = true ->
  normalizeVersion (a ++ String "." (b ++ String "." c))
  = [JS.toDouble (decimal (JS.filterChars JS.isDigit a));
     JS.toDouble (decimal (JS.filterChars JS.isDigit b));
     JS.toDouble (decimal (JS.filterChars JS.isDigit c))].
Proof.
  intros Ha Hb Hc.
  rewrite normalizeVersion_parts, (split_dotted3 a b c Ha Hb Hc).
  reflexivity.
Qed.

Lemma digitValue_le_9 (c : ascii) :
  JS.isDigit c = true -> (0 <= JS.digitValue c <= 9)%Z.
Proof.
  unfold JS.isDigit, JS.digitValue. intro H.
  apply andb_prop in H. destruct H as [_ H]. apply Nat.leb_le in H. lia.
Qed.

(** A string of digits denotes less than 10 to the power of its length. *)
Lemma decimal_bound (digits : string) :
  allChars JS.isDigit digits = true ->
  (0 <= decimal digits < 10 ^ Z.of_nat (String.length digits))%Z.
Proof.
  induction digits as [|c rest IH]; intro H.
  - simpl. lia.
  - simpl in H. apply andb_prop in H. destruct H as [Hc Hrest].
    specialize (IH Hrest). pose proof (digitValue_le_9 c Hc) as Hd.
    change (decimal (String c rest))
      with (JS.digitValue c * 10 ^ Z.of_nat (String.length rest) + decimal rest)%Z.
    change (String.length (String c rest)) with (S (String.length rest)).
    rewrite Nat2Z.inj_succ, Z.pow_succ_r by lia.
    nia.
Qed.

(** At most fifteen digits are read exactly. *)
Lemma toDouble_15_digits (digits : string) :
  allChars JS.isDigit digits = true ->
  (String.length digits <= 15)%nat ->
  JS.toDouble (decimal digits) = JS.Num (decimal digits).
Proof.
  intros Hall Hlen. apply toDouble_small.
  pose proof (decimal_bound digits Hall) as [Hlo Hhi].
  split; [exact Hlo|].
  assert (Hpow : (10 ^ Z.of_nat (String.length digits) <= 10 ^ 15)%Z)
    by (apply Z.pow_le_mono_r; lia).
  assert (H15 : (10 ^ 15 < 2 ^ 53)%Z) by reflexivity.
  lia.
Qed.

(** X6: a version written as three dot-separated strings of digits
    normalizes to the doubles nearest to the three integers these strings
    denote, and to exactly these integers when no string has more than
    fifteen digits. *)
Theorem normalizeVersion_wellformed (a b c : string) :
  allChars JS.isDigit a = true ->
  allChars JS.isDigit b = true ->
  allChars JS.isDigit c = true ->
  normalizeVersion (a ++ String "." (b ++ String "." c))
  = [JS.toDouble (decimal a); JS.toDouble (decimal b); JS.toDouble (decimal c)]
  /\ ((String.length a <= 15)%nat -> (String.length b <= 15)%nat ->
      (String.length c <= 15)%nat ->
      normalizeVersion (a ++ String "." (b ++ String "." c))
      = [JS.Num (decimal a); JS.Num (decimal b); JS.Num (decimal c)]).
Proof.
  intros Ha Hb Hc.
  assert (Hnorm : normalizeVersion (a ++ String "." (b ++ String "." c))
                  = [JS.toDouble (decimal a); JS.toDouble (decimal b);
                     JS.toDouble (decimal c)]).
  { rewrite normalizeVersion_three_parts.
    - rewrite !filterChars_id by assumption. reflexivity.
    - apply (allChars_impl JS.isDigit); [apply digit_not_dot | exact Ha].
    - apply (allChars_impl JS.isDigit); [apply digit_not_dot | exact Hb].
    - apply (allChars_impl JS.isDigit); [apply digit_not_dot | exact Hc]. }
  split; [exact Hnorm|].
  intros La Lb Lc. rewrite Hnorm.
  rewrite (toDouble_15_digits a Ha La), (toDouble_15_digits b Hb Lb),
    (toDouble_15_digits c Hc Lc).
  reflexivity.
Qed.

Lemma normalizeVersion_wellformed_witness :
  normalizeVersion "12.0.345" = [JS.Num 12; JS.Num 0; JS.Num 345].
Proof.
  refine (proj2 (normalizeVersion_wellformed "12" "0" "345" _ _ _) _ _ _);
    try reflexivity; simpl; lia.
Defined.

(** Past fifteen digits the double differs from the integer written. *)
Example rounding_past_fifteen_digits :
  normalizeVersion "9007199254740993.0.0"
  = [JS.Num 9007199254740992; JS.Num 0; JS.Num 0].
Proof. vm_compute. reflexivity. Qed.

(** X7: a leading zero never changes a version: "01.2" reads as "1.2". *)
Theorem normalizeVersion_leading_zero (v : string) :
  normalizeVersion (String "0" v) = normalizeVersion v.
Proof.
  rewrite !normalizeVersion_parts.
  destruct (splitFrom_part "." v) as (hd & tl & Hsplit & _).
  rewrite (split_cons_other "." "0" v hd tl eq_refl Hsplit), Hsplit.
  reflexivity.
Qed.

(** ** The comparator of [src/index.ts] *)

Lemma code_inj (x y : ascii) : JS.code x = JS.code y -> x = y.
Proof.
  unfold JS.code. intro H.
  rewrite <- (ascii_nat_embedding x), <- (ascii_nat_embedding y), H.
  reflexivity.
Qed.

Lemma stringGt_irrefl (s : string) : JS.stringGt s s = false.
Proof.
  induction s as [|c s IH]; simpl.
  - reflexivity.
  - rewrite Nat.ltb_irrefl. exact IH.
Qed.

Lemma stringGt_asym (a : string) :
  forall b, JS.stringGt a b = true -> JS.stringGt b a = false.
Proof.
  induction a as [|x a IH]; intros [|y b] H; simpl in *; try reflexivity;
    try discriminate H.
  destruct (Nat.ltb_spec (JS.code y) (JS.code x)),
    (Nat.ltb_spec (JS.code x) (JS.code y));
    try reflexivity; try discriminate H; try lia.
  apply (IH b H).
Qed.

Lemma stringGt_trans (a : string) :
  forall b c, JS.stringGt a b = true -> JS.stringGt b c = true ->
              JS.stringGt a c = true.
Proof.
  induction a as [|x a IH]; intros [|y b] [|z c] Hab Hbc; simpl in *;
    try discriminate; try reflexivity.
  destruct (Nat.ltb_spec (JS.code y) (JS.code x)),
    (Nat.ltb_spec (JS.code x) (JS.code y)),
    (Nat.ltb_spec (JS.code z) (JS.code y)),
    (Nat.ltb_spec (JS.code y) (JS.code z)),
    (Nat.ltb_spec (JS.code z) (JS.code x)),
    (Nat.ltb_spec (JS.code x) (JS.code z));
    try reflexivity; try discriminate; try lia.
  apply (IH b c Hab Hbc).
Qed.

Lemma stringGt_neither (a : string) :
  forall b, JS.stringGt a b = false -> JS.stringGt b a = false -> a = b.
Proof.
  induction a as [|x a IH]; intros [|y b] Hab Hba; simpl in *;
    try reflexivity; try discriminate.
  destruct (Nat.ltb_spec (JS.code y) (JS.code x)),
    (Nat.ltb_spec (JS.code x) (JS.code y));
    try discriminate; try lia.
  assert (x = y) by (apply code_inj; lia). subst y.
  f_equal. apply (IH b Hab Hba).
Qed.

Lemma stringGt_longer (s t : string) :
  t <> EmptyString -> JS.stringGt (s ++ t) s = true.
Proof.
  intro Ht. induction s as [|c s IH]; simpl.
  - destruct t; [contradiction|reflexivity].
  - rewrite Nat.ltb_irrefl. exact IH.
Qed.

Lemma filterChars_app (keep : ascii -> bool) (a b : string) :
  JS.filterChars keep (a ++ b)
  = (JS.filterChars keep a ++ JS.filterChars keep b)%string.
Proof.
  induction a as [|c a IH]; simpl.
  - reflexivity.
  - destruct (keep c); simpl; rewrite IH; reflexivity.
Qed.

(** X8: the comparator of [src/index.ts] is a strict order: no version is
    newer than itself, two versions are never each newer than the other, and
    newer-than is transitive. *)
Theorem legacy_compareVersions_strict_order (a b c : string) :
  Legacy.compareVersions a a = false
  /\ (Legacy.compareVersions a b = true -> Legacy.compareVersions b a = false)
  /\ (Legacy.compareVersions a b = true -> Legacy.compareVersions b c = true ->
      Legacy.compareVersions a c = true).
Proof.
  unfold Legacy.compareVersions. split; [apply stringGt_irrefl|].
  split; [apply stringGt_asym | apply stringGt_trans].
Qed.

Lemma legacy_compareVersions_strict_order_witness :
  Legacy.compareVersions "1.2.3" "2.0.0" = false
  /\ Legacy.compareVersions "3.0.0" "1.2.3" = true.
Proof.
  destruct (legacy_compareVersions_strict_order "2.0.0" "1.2.3" "1.2.3")
    as (_ & Hasym & _).
  destruct (legacy_compareVersions_strict_order "3.0.0" "2.0.0" "1.2.3")
    as (_ & _ & Htrans).
  split; [apply Hasym | apply Htrans]; reflexivity.
Defined.

(** X9: the comparator of [src/index.ts] does not see where the dots are:
    neither of two versions is newer than the other exactly when they are
    the same string once the dots are removed, as "1.10.0" and "11.0.0". *)
Theorem legacy_compareVersions_dot_blind (a b : string) :
  (Legacy.compareVersions a b = false /\ Legacy.compareVersions b a = false)
  <-> JS.filterChars (fun c => negb (Ascii.eqb c ".")) a
      = JS.filterChars (fun c => negb (Ascii.eqb c ".")) b.
Proof.
  unfold Legacy.compareVersions. split.
  - intros [Hab Hba]. apply stringGt_neither; assumption.
  - intros ->. split; apply stringGt_irrefl.
Qed.

Lemma legacy_compareVersions_dot_blind_witness :
  Legacy.compareVersions "1.10.0" "11.0.0" = false
  /\ Legacy.compareVersions "11.0.0" "1.10.0" = false.
Proof.
  apply (proj2 (legacy_compareVersions_dot_blind "1.10.0" "11.0.0")).
  reflexivity.
Defined.

Example legacy_compareVersions_dot_blind_sample :
  Legacy.compareVersions "11.0.0" "1.10.0" = false
  /\ Legacy.compareVersions "1.10.0" "11.0.0" = false
  /\ compareVersions "11.0.0" "1.10.0" = true.
Proof. repeat split. Qed.

(** X10: for the comparator of [src/index.ts] any text added at the end of a
    version, other than dots, makes it newer: "1.2.3-beta" and "1.2.3.0" are
    both newer than "1.2.3". *)
Theorem legacy_compareVersions_suffix_newer (v w : string) :
  JS.filterChars (fun c => negb (Ascii.eqb c ".")) w <> EmptyString ->
  Legacy.compareVersions (v ++ w) v = true
  /\ Legacy.compareVersions v (v ++ w) = false.
Proof.
  intro Hw. unfold Legacy.compareVersions.
  rewrite filterChars_app.
  assert (H : JS.stringGt
                (JS.filterChars (fun c => negb (Ascii.eqb c ".")) v
                 ++ JS.filterChars (fun c => negb (Ascii.eqb c ".")) w)
                (JS.filterChars (fun c => negb (Ascii.eqb c ".")) v) = true)
    by (apply stringGt_longer; exact Hw).
  split; [exact H | apply stringGt_asym; exact H].
Qed.

Lemma legacy_compareVersions_suffix_newer_witness :
  Legacy.compareVersions "1.2.3-beta" "1.2.3" = true
  /\ Legacy.compareVersions "1.2.3" "1.2.3-beta" = false.
Proof.
  apply (legacy_compareVersions_suffix_newer "1.2.3" "-beta"). discriminate.
Defined.

Lemma decimal_single (x : ascii) : decimal (String x EmptyString) = JS.digitValue x.
Proof.
  change (decimal (String x EmptyString)) with (JS.digitValue x * 1 + 0)%Z.
  lia.
Qed.

Lemma digit_toDouble (x : ascii) :
  JS.isDigit x = true -> JS.toDouble (JS.digitValue x) = JS.Num (JS.digitValue x).
Proof.
  intro Hx. apply toDouble_small.
  pose proof (digitValue_le_9 x Hx).
  assert ((9 < 2 ^ 53)%Z) by reflexivity. lia.
Qed.

Lemma digit_order (x y : ascii) :
  JS.isDigit x = true -> JS.isDigit y = true ->
  (JS.digitValue x <? JS.digitValue y)%Z = (JS.code x <? JS.code y)%nat.
Proof.
  unfold JS.isDigit, JS.digitValue. intros Hx Hy.
  apply andb_prop in Hx. destruct Hx as [Hx _]. apply Nat.leb_le in Hx.
  apply andb_prop in Hy. destruct Hy as [Hy _]. apply Nat.leb_le in Hy.
  destruct (Z.ltb_spec (Z.of_nat (JS.code x - 48)) (Z.of_nat (JS.code y - 48))),
    (Nat.ltb_spec (JS.code x) (JS.code y)); try reflexivity; lia.
Qed.

Lemma digit_part (x : ascii) :
  JS.isDigit x = true ->
  allChars (fun c => negb (Ascii.eqb c ".")) (String x EmptyString) = true
  /\ JS.filterChars JS.isDigit (String x EmptyString) = String x EmptyString.
Proof.
  intro Hx. simpl. rewrite Hx, (digit_not_dot x Hx). split; reflexivity.
Qed.

(** X11: on versions of three one-digit components, "x.y.z", the two
    comparators agree. *)
Theorem legacy_compareVersions_agrees_on_single_digits
    (x y z x' y' z' : ascii) :
  JS.isDigit x = true -> JS.isDigit y = true -> JS.isDigit z = true ->
  JS.isDigit x' = true -> JS.isDigit y' = true -> JS.isDigit z' = true ->
  Legacy.compareVersions
    (String x (String "." (String y (String "." (String z EmptyString)))))
    (String x' (String "." (String y' (String "." (String z' EmptyString)))))
  = compareVersions
      (String x (String "." (String y (String "." (String z EmptyString)))))
      (String x' (String "." (String y' (String "." (String z' EmptyString))))).
Proof.
  intros Hx Hy Hz Hx' Hy' Hz'.
  destruct (digit_part x Hx) as [Dx Fx]. destruct (digit_part y Hy) as [Dy Fy].
  destruct (digit_part z Hz) as [Dz Fz]. destruct (digit_part x' Hx') as [Dx' Fx'].
  destruct (digit_part y' Hy') as [Dy' Fy']. destruct (digit_part z' Hz') as [Dz' Fz'].
  unfold compareVersions.
  pose proof (normalizeVersion_three_parts _ _ _ Dx Dy Dz) as HL.
  pose proof (normalizeVersion_three_parts _ _ _ Dx' Dy' Dz') as HC.
  rewrite Fx, Fy, Fz, !decimal_single, !digit_toDouble in HL by assumption.
  rewrite Fx', Fy', Fz', !decimal_single, !digit_toDouble in HC by assumption.
  simpl append in HL, HC. rewrite HL, HC.
  unfold Legacy.compareVersions. cbn [JS.filterChars].
  rewrite (digit_not_dot x Hx), (digit_not_dot y Hy), (digit_not_dot z Hz),
    (digit_not_dot x' Hx'), (digit_not_dot y' Hy'), (digit_not_dot z' Hz').
  cbn.
  rewrite !digit_order by assumption.
  reflexivity.
Qed.

Lemma legacy_compareVersions_agrees_on_single_digits_witness :
  Legacy.compareVersions "1.2.3" "1.2.2" = compareVersions "1.2.3" "1.2.2".
Proof.
  apply (legacy_compareVersions_agrees_on_single_digits "1" "2" "3" "1" "2" "2");
    reflexivity.
Defined.

(** ** What the patterns capture *)

Lemma digitDot_digitDotDash (s : string) :
  allChars RegExp.digitDot s = true -> allChars RegExp.digitDotDash s = true.
Proof.
  apply allChars_impl. intros c Hc. unfold RegExp.digitDotDash.
  unfold RegExp.digitDot in Hc. rewrite Hc. reflexivity.
Qed.

Lemma clean_capture (m : string) :
  m <> EmptyString /\ allChars RegExp.digitDotDash m = true ->
  m <> EmptyString /\ allChars RegExp.digitDotDash m = true /\ JS.trim m = m.
Proof.
  intros [Hne Hall]. repeat split; try assumption.
  apply trim_no_space.
  apply (allChars_impl RegExp.digitDotDash); [|exact Hall].
  intros c Hc. rewrite (digitDotDash_not_space c Hc). reflexivity.
Qed.

(** Each of the four patterns captures a non-empty string of digits, dots
    and dashes, which [trim] leaves as it is. *)
Lemma patterns_capture (pattern : RegExp.regex) (html m : string) :
  In pattern patterns ->
  RegExp.exec pattern html = Some m ->
  m <> EmptyString /\ allChars RegExp.digitDotDash m = true /\ JS.trim m = m.
Proof.
  intros Hin H. apply clean_capture.
  destruct Hin as [<-|[<-|[<-|[<-|[]]]]].
  - apply (exec_capture
             (RegExp.lits "Current Version"
              ++ [RegExp.Rep true false RegExp.dot; RegExp.Chr ">"])
             (RegExp.lits "</span>") true RegExp.digitDotDash html m
             eq_refl eq_refl H).
  - apply (exec_capture
             (RegExp.lits "[[[" ++ [RegExp.Chr quote])
             (RegExp.Chr quote :: RegExp.lits "]]") false RegExp.digitDotDash
             html m eq_refl eq_refl H).
  - destruct (exec_capture
                ([RegExp.Chr quote] ++ RegExp.lits "versionName"
                 ++ [RegExp.Chr quote; RegExp.Chr ":"; RegExp.Chr quote])
                [RegExp.Chr quote] true RegExp.digitDot html m
                eq_refl eq_refl H) as [Hne Hall].
    split; [exact Hne | apply digitDot_digitDotDash, Hall].
  - destruct (exec_capture
                (RegExp.litsI "Version"
                 ++ [RegExp.Rep false false RegExp.anyChar])
                [] true RegExp.digitDot html m
                eq_refl eq_refl H) as [Hne Hall].
    split; [exact Hne | apply digitDot_digitDotDash, Hall].
Qed.

Lemma findVersion_some (l : list RegExp.regex) (html v : string) :
  (forall pattern, In pattern l -> In pattern patterns) ->
  findVersion l html = Some v ->
  exists pattern, In pattern l /\ RegExp.exec pattern html = Some v
                  /\ v <> EmptyString
                  /\ allChars RegExp.digitDotDash v = true.
Proof.
  induction l as [|p l IH]; intros Hsub H; simpl in H.
  - discriminate H.
  - destruct (RegExp.exec p html) as [[|c m]|] eqn:Hp.
    + destruct (IH (fun q Hq => Hsub q (or_intror Hq)) H) as (q & Hq & Hrest).
      exists q. split; [right; exact Hq | exact Hrest].
    + destruct (patterns_capture p html (String c m) (Hsub p (or_introl eq_refl)) Hp)
        as (Hne & Hall & Htrim).
      rewrite Htrim in H. injection H as <-.
      exists p. repeat split; try assumption. left. reflexivity.
    + destruct (IH (fun q Hq => Hsub q (or_intror Hq)) H) as (q & Hq & Hrest).
      exists q. split; [right; exact Hq | exact Hrest].
Qed.

Lemma findVersion_none (l : list RegExp.regex) (html : string) :
  (forall pattern, In pattern l -> In pattern patterns) ->
  (findVersion l html = None
   <-> forall pattern, In pattern l -> RegExp.exec pattern html = None).
Proof.
  induction l as [|p l IH]; intro Hsub; simpl.
  - split; [intros _ q []|reflexivity].
  - specialize (IH (fun q Hq => Hsub q (or_intror Hq))).
    destruct (RegExp.exec p html) as [[|c m]|] eqn:Hp.
    + destruct (patterns_capture p html EmptyString (Hsub p (or_introl eq_refl)) Hp)
        as (Hne & _). contradiction.
    + split; [discriminate|].
      intro Hall. rewrite (Hall p (or_introl eq_refl)) in Hp. discriminate Hp.
    + rewrite IH. split.
      * intros Hall q [<-|Hq]; [exact Hp | apply Hall, Hq].
      * intros Hall q Hq. apply Hall. right. exact Hq.
Qed.

(** X12: the version scraped from a Play Store page is what one of the four
    patterns captures there, and it is always a non-empty string of digits,
    dots and dashes: no white space, no markup. *)
Theorem findVersion_is_clean (html v : string) :
  findVersion patterns html = Some v ->
  v <> EmptyString
  /\ allChars RegExp.digitDotDash v = true
  /\ exists pattern, In pattern patterns /\ RegExp.exec pattern html = Some v.
Proof.
  intro H.
  destruct (findVersion_some patterns html v (fun q Hq => Hq) H)
    as (p & Hin & Hexec & Hne & Hall).
  repeat split; try assumption. exists p. split; assumption.
Qed.

Lemma findVersion_is_clean_witness :
  "1.2.3"%string <> EmptyString
  /\ allChars RegExp.digitDotDash "1.2.3" = true
  /\ exists pattern, In pattern patterns
                     /\ RegExp.exec pattern pageBoth = Some "1.2.3"%string.
Proof. apply (findVersion_is_clean pageBoth "1.2.3"). reflexivity. Defined.

(** X13: no version is found exactly when none of the four patterns matches
    the page. *)
Theorem findVersion_none_iff (html : string) :
  findVersion patterns html = None
  <-> (RegExp.exec patternCurrentVersion html = None
       /\ RegExp.exec patternArrayLiteral html = None
       /\ RegExp.exec patternVersionName html = None
       /\ RegExp.exec patternLoose html = None).
Proof.
  rewrite (findVersion_none patterns html (fun q Hq => Hq)). split.
  - intro Hall. repeat split; apply Hall; simpl; auto.
  - intros (Ha & Hb & Hc & Hd) q [<-|[<-|[<-|[<-|[]]]]]; assumption.
Qed.

Lemma findVersion_none_iff_witness :
  findVersion patterns "<html>Versions: none</html>" = None.
Proof.
  apply (proj2 (findVersion_none_iff "<html>Versions: none</html>")).
  repeat split.
Defined.

(** A greedy repetition runs through a string of the class up to a
    character outside it. *)
Lemma repeatClass_greedy_run (cls : ascii -> bool)
    (k : string -> string -> option string) (stop : ascii) (rest m : string) :
  cls stop = false ->
  forall v captured,
    allChars cls v = true ->
    k (String stop rest) (captured ++ v)%string = Some m ->
    RegExp.repeatClass true cls k true (v ++ String stop rest) captured = Some m.
Proof.
  intros Hstop. induction v as [|c v IH]; intros captured Hall Hk.
  - rewrite append_empty_r in Hk. simpl. rewrite Hstop. exact Hk.
  - simpl in Hall. apply andb_prop in Hall. destruct Hall as [Hc Hv].
    cbn [RegExp.repeatClass append]. rewrite Hc.
    rewrite (IH (RegExp.push true captured c) Hv).
    + reflexivity.
    + unfold RegExp.push. rewrite append_assoc_string. exact Hk.
Qed.

Lemma exec_here (pattern : RegExp.regex) (s m : string) :
  RegExp.matchHere pattern s false EmptyString = Some m ->
  RegExp.exec pattern s = Some m.
Proof. intro H. destruct s; simpl; rewrite H; reflexivity. Qed.

Lemma exec_at_suffix (pattern : RegExp.regex) (s m : string) :
  RegExp.matchHere pattern s false EmptyString = Some m ->
  forall pre, exists m', RegExp.exec pattern (pre ++ s) = Some m'.
Proof.
  intros Hm pre. induction pre as [|c pre IH].
  - exists m. apply exec_here, Hm.
  - simpl append. simpl RegExp.exec.
    destruct (RegExp.matchHere pattern (String c (pre ++ s)) false EmptyString)
      as [m1|].
    + exists m1. reflexivity.
    + exact IH.
Qed.

Lemma versionName_matchHere (v rest : string) :
  v <> EmptyString -> allChars RegExp.digitDot v = true ->
  RegExp.matchHere patternVersionName (versionNameFragment v ++ rest)
    false EmptyString = Some v.
Proof.
  intros Hne Hall. destruct v as [|c v]; [contradiction|].
  simpl in Hall. apply andb_prop in Hall. destruct Hall as [Hc Hv].
  unfold versionNameFragment.
  rewrite !append_assoc_string.
  cbn -[RegExp.repeatClass]. rewrite Hc.
  apply (repeatClass_greedy_run RegExp.digitDot _ quote rest (String c v)
           eq_refl v (String c EmptyString) Hv).
  reflexivity.
Qed.

(** X14: pattern (c) reads back what the fragment ["versionName":"v"] holds:
    at the start of a page it captures exactly [v], and a page that contains
    the fragment anywhere always yields some version. *)
Theorem versionName_fragment_found (pre v rest : string) :
  v <> EmptyString -> allChars RegExp.digitDot v = true ->
  RegExp.exec patternVersionName (versionNameFragment v ++ rest) = Some v
  /\ exists found,
       findVersion patterns (pre ++ versionNameFragment v ++ rest) = Some found.
Proof.
  intros Hne Hall.
  pose proof (versionName_matchHere v rest Hne Hall) as Hm.
  split.
  - apply exec_here, Hm.
  - destruct (exec_at_suffix patternVersionName _ v Hm pre) as [m' Hexec].
    destruct (findVersion patterns (pre ++ versionNameFragment v ++ rest))
      as [found|] eqn:Hfind.
    + exists found. reflexivity.
    + pose proof (proj1 (findVersion_none patterns _ (fun q Hq => Hq)) Hfind
                    patternVersionName) as Hc.
      rewrite Hc in Hexec; [discriminate Hexec|].
      simpl. auto.
Qed.

Lemma versionName_fragment_found_witness :
  RegExp.exec patternVersionName (versionNameFragment "4.5.6" ++ ";") = Some "4.5.6"%string
  /\ exists found,
       findVersion patterns ("<script>" ++ versionNameFragment "4.5.6" ++ ";")
       = Some found.
Proof.
  apply (versionName_fragment_found "<script>" "4.5.6" ";").
  - discriminate.
  - reflexivity.
Defined.

(** ** The lookup of [src/unnamed/part_000], further *)

(** X15: the lookup makes one request and reads nothing else: two
    environments that agree on the platform test, on the bundle id and on
    the answer to that one request get the same result.  In particular every
    platform other than "ios" is looked up on the Play Store. *)
Theorem getLatestStoreVersion_single_request (env env' : Env) :
  String.eqb (Platform_OS env) "ios" = String.eqb (Platform_OS env') "ios" ->
  getBundleId env = getBundleId env' ->
  fetch env (lookupUrl env) = fetch env' (lookupUrl env') ->
  getLatestStoreVersion env = getLatestStoreVersion env'.
Proof.
  unfold lookupUrl, getLatestStoreVersion. intros Hos Hid Hfetch.
  rewrite <- Hos, <- Hid in *.
  destruct (String.eqb (Platform_OS env) "ios"); rewrite Hfetch; reflexivity.
Qed.

Lemma getLatestStoreVersion_single_request_witness :
  getLatestStoreVersion (sampleEnv "android" (listing pageBoth))
  = getLatestStoreVersion
      {| Platform_OS := "web";
         getBundleId := "com.example.app";
         getVersion := "7.7.7";
         fetch := fun url =>
                    if String.eqb url (lookupUrlAndroid "com.example.app")
                    then listing pageBoth else offline |}.
Proof.
  apply getLatestStoreVersion_single_request; reflexivity.
Defined.

(** X16: an answer with a success status whose body cannot be read
    ([response.json()] rejects on iOS, [response.text()] on the other
    platforms) makes the lookup throw, with the message of the failure after
    the fixed prefix; it is not an absent result. *)
Theorem getLatestStoreVersion_unreadable_body (env : Env)
    (response : Response) (e : JS.thrown) :
  fetch env (lookupUrl env) = JS.Return response ->
  ok response = true ->
  (String.eqb (Platform_OS env) "ios" = true /\ json response = JS.Throw e)
  \/ (String.eqb (Platform_OS env) "ios" = false /\ text response = JS.Throw e) ->
  getLatestStoreVersion env
  = JS.Throw (JS.ErrorObj ("Error fetching the latest version: " ++ messageOf e)).
Proof.
  unfold lookupUrl, getLatestStoreVersion. intros Hfetch Hok [[Hos Hbody]|[Hos Hbody]];
    rewrite Hos in *; rewrite Hfetch; simpl; rewrite Hok, Hbody; simpl;
    destruct e; reflexivity.
Qed.

Lemma getLatestStoreVersion_unreadable_body_witness :
  getLatestStoreVersion (sampleEnv "ios" (listing "<html></html>"))
  = JS.Throw (JS.ErrorObj "Error fetching the latest version: JSON Parse error").
Proof.
  apply (getLatestStoreVersion_unreadable_body
           (sampleEnv "ios" (listing "<html></html>"))
           {| ok := true; statusText := "OK";
              json := JS.Throw (JS.ErrorObj "JSON Parse error");
              text := JS.Return "<html></html>" |}
           (JS.ErrorObj "JSON Parse error")).
  - reflexivity.
  - reflexivity.
  - left. split; reflexivity.
Defined.

(** X17: on iOS, an answer with a positive [resultCount] and a first result
    resolves to the version and the [trackViewUrl] of that first result, an
    empty or missing field being [null]; further results are not read. *)
Theorem getLatestStoreVersion_ios_first_result (env : Env)
    (response : Response) (data : LookupData) (n : Z) (appInfo : AppInfo)
    (others : list AppInfo) :
  String.eqb (Platform_OS env) "ios" = true ->
  fetch env (lookupUrlIos (getBundleId env)) = JS.Return response ->
  ok response = true ->
  json response = JS.Return data ->
  resultCount data = JS.Num n -> (0 < n)%Z ->
  results data = Some (appInfo :: others) ->
  getLatestStoreVersion env
  = JS.Return {| sv_version := orNull (version appInfo);
                 sv_url := orNull (trackViewUrl appInfo) |}.
Proof.
  intros Hos Hfetch Hok Hjson Hcount Hn Hresults.
  unfold getLatestStoreVersion.
  rewrite Hos, Hfetch. simpl. rewrite Hok, Hjson. simpl.
  unfold firstResult. rewrite Hcount, Hresults. simpl.
  destruct (Z.ltb_spec 0 n); [reflexivity | lia].
Qed.

Lemma getLatestStoreVersion_ios_first_result_witness :
  getLatestStoreVersion
    (sampleEnv "ios"
       (JS.Return
          {| ok := true; statusText := "OK";
             json := JS.Return
                       {| resultCount := JS.Num 2;
                          results := Some [ {| version := Some "2.1.0"%string;
                                               trackViewUrl := Some EmptyString |};
                                            {| version := Some "9.9.9"%string;
                                               trackViewUrl := None |} ] |};
             text := JS.Return EmptyString |}))
  = JS.Return {| sv_version := Some "2.1.0"%string; sv_url := None |}.
Proof.
  refine (getLatestStoreVersion_ios_first_result _ _ _ 2
            {| version := Some "2.1.0"%string; trackViewUrl := Some EmptyString |}
            [ {| version := Some "9.9.9"%string; trackViewUrl := None |} ]
            _ _ _ _ _ _ _); try reflexivity.
Defined.

(** ** [checkForUpdate] of [src/unnamed/part_000], further *)

Lemma getLatestStoreVersion_throws_wrapped (env : Env) (e : JS.thrown) :
  getLatestStoreVersion env = JS.Throw e ->
  exists message,
    e = JS.ErrorObj ("Error fetching the latest version: " ++ message).
Proof.
  unfold getLatestStoreVersion, JS.tryCatch.
  match goal with |- context [match ?body with _ => _ end] => destruct body end.
  - discriminate.
  - intro H. injection H as <-. eexists. reflexivity.
Qed.

(** X18: a check ends in one of two ways.  Either the lookup returned and
    the error cell is empty; or it threw, and then the error cell holds an
    [Error] whose message starts with "Error fetching the latest version: "
    while the live version, the update flag and the update URL keep the
    values they had before the check. *)
Theorem checkForUpdate_error_cell (env : Env) (st : HookState) :
  ((exists r, getLatestStoreVersion env = JS.Return r)
   /\ error (checkForUpdate env st) = None)
  \/ (exists message,
        getLatestStoreVersion env
        = JS.Throw (JS.ErrorObj ("Error fetching the latest version: " ++ message))
        /\ error (checkForUpdate env st)
           = Some (JS.ErrorObj ("Error fetching the latest version: " ++ message))
        /\ liveVersion (checkForUpdate env st) = liveVersion st
        /\ needUpdate (checkForUpdate env st) = needUpdate st
        /\ updateUrl (checkForUpdate env st) = updateUrl st).
Proof.
  unfold checkForUpdate.
  destruct (getLatestStoreVersion env) as [[[[|c v]|] url]|e] eqn:Hget.
  - left. split; [eexists|]; reflexivity.
  - left. split; [eexists|]; reflexivity.
  - left. split; [eexists|]; reflexivity.
  - right. destruct (getLatestStoreVersion_throws_wrapped env e Hget) as [m ->].
    exists m. repeat split.
Qed.

(** X19: whatever the lookup does, a check ends with [isLoading] false and
    with the installed version in [currentVersion]. *)
Theorem checkForUpdate_finally (env : Env) (st : HookState) :
  isLoading (checkForUpdate env st) = false
  /\ currentVersion (checkForUpdate env st) = Some (getVersion env).
Proof.
  unfold checkForUpdate.
  destruct (getLatestStoreVersion env) as [[[[|c v]|] url]|e]; split; reflexivity.
Qed.

(** X20: checking again in the same environment changes nothing: the state
    after two checks is the state after one. *)
Theorem checkForUpdate_idempotent (env : Env) (st : HookState) :
  checkForUpdate env (checkForUpdate env st) = checkForUpdate env st.
Proof.
  unfold checkForUpdate.
  destruct (getLatestStoreVersion env) as [[[[|c v]|] url]|e]; reflexivity.
Qed.

(** X21: after a check that recorded no error, [needUpdate] is true exactly
    when there is a live version and it is newer than the installed one. *)
Theorem checkForUpdate_needUpdate (env : Env) (st : HookState) :
  error (checkForUpdate env st) = None ->
  (needUpdate (checkForUpdate env st) = true
   <-> exists live,
         liveVersion (checkForUpdate env st) = Some live
         /\ compareVersions live (getVersion env) = true).
Proof.
  unfold checkForUpdate.
  destruct (getLatestStoreVersion env) as [[[[|c v]|] url]|e]; simpl; intro Herr.
  - split; [discriminate | intros (live & Hlive & _); discriminate Hlive].
  - destruct (compareVersions (String c v) (getVersion env)) eqn:Hcmp.
    + split; [|reflexivity]. intros _. exists (String c v). split; [reflexivity|exact Hcmp].
    + split; [discriminate|].
      intros (live & Hlive & Hnewer). injection Hlive as <-. congruence.
  - split; [discriminate | intros (live & Hlive & _); discriminate Hlive].
  - discriminate Herr.
Qed.

Lemma checkForUpdate_needUpdate_witness :
  needUpdate (checkForUpdate (sampleEnv "android" (listing pageBoth)) initialState) = true
  <-> exists live,
        liveVersion (checkForUpdate (sampleEnv "android" (listing pageBoth)) initialState)
        = Some live
        /\ compareVersions live "1.0.0" = true.
Proof.
  apply (checkForUpdate_needUpdate (sampleEnv "android" (listing pageBoth)) initialState).
  reflexivity.
Defined.

(** X22: when the lookup returns without a version, the check keeps the
    update URL it had: the store URL the Android branch built is dropped.
    After a first check on a Play Store page without a version there is
    therefore no URL, and [handleUpdate] opens nothing. *)
Theorem checkForUpdate_no_version_drops_url (env : Env) (st : HookState)
    (url : option string) (linking : Linking) :
  getLatestStoreVersion env = JS.Return {| sv_version := None; sv_url := url |} ->
  updateUrl (checkForUpdate env st) = updateUrl st
  /\ liveVersion (checkForUpdate env st) = None
  /\ needUpdate (checkForUpdate env st) = false
  /\ handleUpdate linking (mount env) = (mount env, None).
Proof.
  intro Hget. unfold mount, handleUpdate, checkForUpdate. rewrite Hget.
  repeat split.
Qed.

Lemma checkForUpdate_no_version_drops_url_witness :
  getLatestStoreVersion (sampleEnv "android" (listing "<html></html>"))
  = JS.Return {| sv_version := None;
                 sv_url := Some (storeUrlAndroid "com.example.app") |}
  /\ updateUrl (checkForUpdate (sampleEnv "android" (listing "<html></html>"))
                  initialState) = None.
Proof.
  split; [reflexivity|].
  apply (checkForUpdate_no_version_drops_url
           (sampleEnv "android" (listing "<html></html>")) initialState
           (Some (storeUrlAndroid "com.example.app"))
           {| canOpenURL := fun _ => JS.Return true;
              openURL := fun _ => JS.Return tt |}).
  reflexivity.
Defined.

(** X23: from lookup to store page on Android: when the page yields a
    version [v], the check records [v] as live version, the store URL of the
    bundle id as update URL and the comparison with the installed version as
    [needUpdate]; [handleUpdate] then opens exactly that URL when [Linking]
    accepts it. *)
Theorem android_check_then_update (env : Env) (st : HookState)
    (response : Response) (html v : string) (linking : Linking) :
  String.eqb (Platform_OS env) "ios" = false ->
  fetch env (lookupUrlAndroid (getBundleId env)) = JS.Return response ->
  ok response = true ->
  text response = JS.Return html ->
  findVersion patterns html = Some v ->
  canOpenURL linking (storeUrlAndroid (getBundleId env)) = JS.Return true ->
  openURL linking (storeUrlAndroid (getBundleId env)) = JS.Return tt ->
  liveVersion (checkForUpdate env st) = Some v
  /\ updateUrl (checkForUpdate env st) = Some (storeUrlAndroid (getBundleId env))
  /\ needUpdate (checkForUpdate env st) = compareVersions v (getVersion env)
  /\ error (checkForUpdate env st) = None
  /\ handleUpdate linking (checkForUpdate env st)
     = (checkForUpdate env st, Some (storeUrlAndroid (getBundleId env))).
Proof.
  intros Hos Hfetch Hok Htext Hfind Hcan Hopen.
  destruct (findVersion_some patterns html v (fun q Hq => Hq) Hfind)
    as (_ & _ & _ & Hne & _).
  destruct v as [|c v]; [contradiction|].
  unfold handleUpdate, checkForUpdate.
  rewrite (getLatestStoreVersion_android env response html Hos Hfetch Hok Htext).
  rewrite Hfind.
  cbn [updateUrl liveVersion needUpdate error].
  unfold storeUrlAndroid in *. cbn [append] in *.
  rewrite Hcan, Hopen.
  destruct (compareVersions (String c v) (getVersion env)); repeat split.
Qed.

Lemma android_check_then_update_witness :
  liveVersion (mount (sampleEnv "android" (listing pageBoth))) = Some "1.2.3"%string
  /\ needUpdate (mount (sampleEnv "android" (listing pageBoth))) = true
  /\ snd (handleUpdate {| canOpenURL := fun _ => JS.Return true;
                          openURL := fun _ => JS.Return tt |}
            (mount (sampleEnv "android" (listing pageBoth))))
     = Some "https://play.google.com/store/apps/details?id=com.example.app"%string.
Proof.
  destruct (android_check_then_update
              (sampleEnv "android" (listing pageBoth)) initialState
              {| ok := true; statusText := "OK";
                 json := JS.Throw (JS.ErrorObj "JSON Parse error");
                 text := JS.Return pageBoth |}
              pageBoth "1.2.3"
              {| canOpenURL := fun _ => JS.Return true;
                 openURL := fun _ => JS.Return tt |})
    as (Hlive & _ & Hneed & _ & Hopen); try reflexivity.
  unfold mount. rewrite Hlive, Hneed, Hopen. repeat split.
Defined.

(** ** [handleUpdate] of [src/unnamed/part_000] *)

(** X24: [handleUpdate] never changes what a check computed: the installed
    and live versions, [needUpdate], the update URL and [isLoading] stay as
    they were; the error cell is either left alone (also after a successful
    open: an earlier error is not cleared) or set to an [Error]. *)
Theorem handleUpdate_keeps_versions (linking : Linking) (st : HookState) :
  currentVersion (fst (handleUpdate linking st)) = currentVersion st
  /\ liveVersion (fst (handleUpdate linking st)) = liveVersion st
  /\ needUpdate (fst (handleUpdate linking st)) = needUpdate st
  /\ updateUrl (fst (handleUpdate linking st)) = updateUrl st
  /\ isLoading (fst (handleUpdate linking st)) = isLoading st
  /\ (fst (handleUpdate linking st) = st
      \/ exists message,
           error (fst (handleUpdate linking st)) = Some (JS.ErrorObj message)).
Proof.
  unfold handleUpdate.
  destruct (updateUrl st) as [[|c u]|] eqn:Hurl; simpl.
  - repeat split; try exact Hurl. left. reflexivity.
  - destruct (canOpenURL linking (String c u)) as [[|]|e].
    + destruct (openURL linking (String c u)) as [[]|e]; simpl.
      * repeat split; try exact Hurl. left. reflexivity.
      * repeat split; try exact Hurl. right. destruct e; eexists; reflexivity.
    + simpl. repeat split; try exact Hurl. right. eexists. reflexivity.
    + simpl. repeat split; try exact Hurl. right. destruct e; eexists; reflexivity.
  - repeat split; try exact Hurl. left. reflexivity.
Qed.

(** X25: [handleUpdate] calls [Linking.openURL] exactly when a non-empty
    update URL is stored and [Linking.canOpenURL] answered true for it, and
    then with that URL; without a URL nothing happens. *)
Theorem handleUpdate_opens_stored_url (linking : Linking) (st : HookState)
    (u : string) :
  snd (handleUpdate linking st) = Some u
  <-> (updateUrl st = Some u /\ u <> EmptyString
       /\ canOpenURL linking u = JS.Return true).
Proof.
  unfold handleUpdate. split.
  - destruct (updateUrl st) as [[|c w]|]; simpl; try discriminate.
    destruct (canOpenURL linking (String c w)) as [[|]|e] eqn:Hcan;
      simpl; try discriminate.
    destruct (openURL linking (String c w)) as [[]|e]; simpl;
      intro H; injection H as <-; repeat split; try assumption; discriminate.
  - intros (Hurl & Hne & Hcan). rewrite Hurl.
    destruct u as [|c w]; [contradiction|].
    rewrite Hcan. destruct (openURL linking (String c w)) as [[]|e]; reflexivity.
Qed.

Lemma handleUpdate_opens_stored_url_witness :
  snd (handleUpdate {| canOpenURL := fun _ => JS.Return true;
                       openURL := fun _ => JS.Throw JS.NonError |}
         {| currentVersion := Some "1.0.0"%string;
            liveVersion := Some "1.2.0"%string;
            needUpdate := true;
            updateUrl := Some "https://apps.apple.com/app/id1"%string;
            isLoading := false;
            error := None |})
  = Some "https://apps.apple.com/app/id1"%string.
Proof.
  apply (proj2 (handleUpdate_opens_stored_url _ _ _)).
  repeat split. discriminate.
Defined.

(** When [Linking.canOpenURL] answers false, nothing is opened and the
    error cell names the URL; when [Linking] itself fails with something that
    is not an [Error], the error cell holds "Failed to open update URL". *)
Theorem handleUpdate_failures (linking : Linking) (st : HookState) (u : string) :
  updateUrl st = Some u -> u <> EmptyString ->
  (canOpenURL linking u = JS.Return false ->
   handleUpdate linking st
   = (setError st (JS.ErrorObj ("Cannot open URL: " ++ u)), None))
  /\ (canOpenURL linking u = JS.Throw JS.NonError ->
      handleUpdate linking st
      = (setError st (JS.ErrorObj "Failed to open update URL"), None))
  /\ (canOpenURL linking u = JS.Return true ->
      openURL linking u = JS.Throw JS.NonError ->
      handleUpdate linking st
      = (setError st (JS.ErrorObj "Failed to open update URL"), Some u)).
Proof.
  intros Hurl Hne. unfold handleUpdate. rewrite Hurl.
  destruct u as [|c w]; [contradiction|].
  repeat split.
  - intros ->. reflexivity.
  - intros ->. reflexivity.
  - intros -> ->. reflexivity.
Qed.

Lemma handleUpdate_failures_witness :
  handleUpdate {| canOpenURL := fun _ => JS.Return false;
                  openURL := fun _ => JS.Return tt |}
    (mount (sampleEnv "android" (listing pageBoth)))
  = (setError (mount (sampleEnv "android" (listing pageBoth)))
       (JS.ErrorObj
          "Cannot open URL: https://play.google.com/store/apps/details?id=com.example.app"),
     None).
Proof.
  refine (proj1 (handleUpdate_failures _ _
                   "https://play.google.com/store/apps/details?id=com.example.app"
                   _ _) _).
  - reflexivity.
  - discriminate.
  - reflexivity.
Defined.

(** ** The hook of [src/index.ts], further *)

(** X26: in the hook of [src/index.ts] the update flag is sticky: a check
    never sets [needUpdate] back to false, whatever the lookup returns. *)
Theorem legacy_needUpdate_sticky (env : Env) (st : Legacy.HookState) :
  Legacy.needUpdate st = true ->
  Legacy.needUpdate (Legacy.checkForUpdate env st) = true.
Proof.
  intro H. unfold Legacy.checkForUpdate.
  destruct (Legacy.getLatestStoreVersion env (Legacy.updateUrl st))
    as [[[|c v]|] url]; simpl; try exact H.
  destruct (Legacy.compareVersions (String c v) (getVersion env));
    [reflexivity | exact H].
Qed.

Lemma legacy_needUpdate_sticky_witness :
  Legacy.needUpdate
    (Legacy.checkForUpdate (sampleEnv "ios" noResults)
       {| Legacy.currentVersion := Some "1.0.0"%string;
          Legacy.liveVersion := Some "2.0.0"%string;
          Legacy.needUpdate := true;
          Legacy.updateUrl := None |}) = true.
Proof. apply legacy_needUpdate_sticky. reflexivity. Defined.

(** X27: on Android the lookup of [src/index.ts] either finds nothing and
    leaves the update URL as it was, or returns a non-empty version of digits
    and dots together with the store URL of the bundle id. *)
Theorem legacy_android_lookup (env : Env) (url : option string) :
  String.eqb (Platform_OS env) "ios" = false ->
  Legacy.getLatestStoreVersion env url = (None, url)
  \/ exists v,
       Legacy.getLatestStoreVersion env url
       = (Some v, Some (storeUrlAndroid (getBundleId env)))
       /\ v <> EmptyString /\ allChars RegExp.digitDot v = true.
Proof.
  intro Hos. unfold Legacy.getLatestStoreVersion. rewrite Hos.
  destruct (fetch env (storeUrlAndroid (getBundleId env))) as [response|e];
    [|left; reflexivity].
  destruct (text response) as [html|e]; [|left; reflexivity].
  destruct (RegExp.exec Legacy.regex html) as [[|c m]|] eqn:Hexec;
    try (left; reflexivity).
  right. exists (String c m). split; [reflexivity|].
  apply (exec_capture
           (RegExp.lits "<div"
            ++ [RegExp.Rep false true RegExp.notGt; RegExp.Chr ">";
                RegExp.Rep false true JS.isWhiteSpace]
            ++ RegExp.lits "Current"
            ++ [RegExp.Rep true true JS.isWhiteSpace]
            ++ RegExp.lits "Version"
            ++ [RegExp.Rep false true JS.isWhiteSpace]
            ++ RegExp.lits "</div>"
            ++ [RegExp.Rep false true JS.isWhiteSpace]
            ++ RegExp.lits "<span"
            ++ [RegExp.Rep false true RegExp.notGt; RegExp.Chr ">";
                RegExp.Rep false true JS.isWhiteSpace])
           (RegExp.Rep false true JS.isWhiteSpace :: RegExp.lits "</span>")
           true RegExp.digitDot html (String c m) eq_refl eq_refl Hexec).
Qed.

Lemma legacy_android_lookup_witness :
  Legacy.getLatestStoreVersion
    (sampleEnv "android" (listing "<div>Current Version</div><span> 3.1 </span>"))
    None
  = (Some "3.1"%string,
     Some "https://play.google.com/store/apps/details?id=com.example.app"%string).
Proof.
  destruct (legacy_android_lookup
              (sampleEnv "android"
                 (listing "<div>Current Version</div><span> 3.1 </span>"))
              None eq_refl) as [Hnone|(v & Hsome & _)].
  - discriminate Hnone.
  - reflexivity.
Defined.

(** X28: on iOS the lookup of [src/index.ts], given a positive [resultCount]
    with an empty [results] array, returns no version and erases the update
    URL the hook had. *)
Theorem legacy_ios_empty_results (env : Env) (response : Response)
    (data : LookupData) (n : Z) (url : option string) :
  String.eqb (Platform_OS env) "ios" = true ->
  fetch env (lookupUrlIos (getBundleId env)) = JS.Return response ->
  json response = JS.Return data ->
  resultCount data = JS.Num n -> (0 < n)%Z ->
  results data = Some [] ->
  Legacy.getLatestStoreVersion env url = (None, None).
Proof.
  intros Hos Hfetch Hjson Hcount Hn Hresults.
  unfold Legacy.getLatestStoreVersion.
  rewrite Hos, Hfetch, Hjson, Hcount, Hresults. simpl.
  destruct (Z.ltb_spec 0 n); [reflexivity | lia].
Qed.

Lemma legacy_ios_empty_results_witness :
  Legacy.getLatestStoreVersion
    (sampleEnv "ios"
       (JS.Return {| ok := true; statusText := "OK";
                     json := JS.Return {| resultCount := JS.Num 1; results := Some [] |};
                     text := JS.Return EmptyString |}))
    (Some "https://apps.apple.com/app/id1"%string)
  = (None, None).
Proof.
  refine (legacy_ios_empty_results _ _ _ 1 _ _ _ _ _ _ _); try reflexivity.
Defined.

(** X29: [handleUpdate] of [src/index.ts] calls [Linking.openURL] exactly
    when a non-empty update URL is stored, and does not catch: it throws
    exactly what [openURL] throws. *)
Theorem legacy_handleUpdate_uncaught (linking : Linking)
    (st : Legacy.HookState) (e : JS.thrown) :
  Legacy.handleUpdate linking st = JS.Throw e
  <-> exists u, Legacy.updateUrl st = Some u /\ u <> EmptyString
                /\ openURL linking u = JS.Throw e.
Proof.
  unfold Legacy.handleUpdate. split.
  - destruct (Legacy.updateUrl st) as [[|c u]|]; try discriminate.
    destruct (openURL linking (String c u)) as [[]|e'] eqn:Hopen; simpl;
      try discriminate.
    intro H. injection H as <-. exists (String c u).
    repeat split; [discriminate | exact Hopen].
  - intros (u & Hurl & Hne & Hopen). rewrite Hurl.
    destruct u as [|c u]; [contradiction|]. rewrite Hopen. reflexivity.
Qed.

Lemma legacy_handleUpdate_uncaught_witness :
  Legacy.handleUpdate {| canOpenURL := fun _ => JS.Return true;
                         openURL := fun _ => JS.Throw (JS.ErrorObj "No handler") |}
    {| Legacy.currentVersion := Some "1.0.0"%string;
       Legacy.liveVersion := Some "1.2.0"%string;
       Legacy.needUpdate := true;
       Legacy.updateUrl := Some "https://apps.apple.com/app/id1"%string |}
  = JS.Throw (JS.ErrorObj "No handler").
Proof.
  apply (proj2 (legacy_handleUpdate_uncaught _ _ _)).
  exists "https://apps.apple.com/app/id1"%string.
  repeat split. discriminate.
Defined.
